(** * deplumi: the artifact build pipeline

    A shallow embedding of the Python package [deplumi]:
    - [deplumi/builders/pipenv.py]: the pipenv builder (content-addressed
      build directory, subprocess calls, the zip bundler and its filter);
    - [deplumi/resourcegen.py]: the generator of the accessor module
      [__res__.py], and the accessor module it generates;
    - [deplumi/__init__.py]: [build_zip_package], which sequences them,
      [get_lambda_bucket] and [Package.function].

    Python exceptions are values of [exn]; a computation that may raise
    returns a [result]; code that touches the file system or starts child
    processes runs in the state-and-exception monad [M] over [world]. *)

From Stdlib Require Import ZArith NArith List Ascii String Lia Bool.
From Stdlib.Strings Require Import Byte.
From stdpp Require Import base decidable option list gmap strings.

Import ListNotations.
Local Open Scope string_scope.
Local Open Scope list_scope.

(* ===================================================================== *)
(** * Exceptions and results                                              *)
(* ===================================================================== *)

(** The exception classes the modelled code raises, each with the arguments
    it is raised with. [SubprocessError] is raised as the bare class. *)
Inductive exn : Type :=
| AssertionError
| IndexError
| KeyError (key : string)
| OSError (msg : string)
| FileNotFoundError (path : string)
| FileExistsError (path : string)
| SubprocessError
| AttributeError (msg : string)
| TypeError
| ValueError (msg : string)
| StructError
| SyntaxError.

Inductive result (A : Type) : Type :=
| Ok (a : A)
| Raise (e : exn).

Arguments Ok {A} a.
Arguments Raise {A} e.

Definition result_bind {A B} (r : result A) (k : A -> result B) : result B :=
  match r with
  | Ok a => k a
  | Raise e => Raise e
  end.

(* ===================================================================== *)
(** * Strings                                                             *)
(* ===================================================================== *)

(** [str.endswith]: the last [len(suffix)] characters are [suffix]. *)
Definition endswith (s suffix : string) : bool :=
  (String.length suffix <=? String.length s)%nat
  && String.eqb
       (String.substring (String.length s - String.length suffix)
                         (String.length suffix) s)
       suffix.

(** [sep.join(parts)]. *)
Definition join (sep : string) (parts : list string) : string :=
  String.concat sep parts.

Definition nl : string := String "010"%char EmptyString.
Definition dquote : string := String "034"%char EmptyString.
Definition squote : string := String "039"%char EmptyString.
Definition backslash : string := String "092"%char EmptyString.

(* ===================================================================== *)
(** * pathlib: pure paths                                                 *)
(* ===================================================================== *)

(** A [PurePosixPath]: whether it has a root, and its components. The
    relative path ['.'] has no components. *)
Record PurePath : Type := mkPath {
  is_absolute : bool;
  parts : list string
}.

Definition relpath_of (components : list string) : PurePath :=
  mkPath false components.

(** [path.name]: the final component, [''] when there is none. *)
Definition name (p : PurePath) : string :=
  List.last (parts p) "".

(** [path.parents] of a relative path, from the longest proper prefix down
    to ['.']: for [a/b/c] these are [a/b], [a], [.]. *)
Definition parents (p : PurePath) : list PurePath :=
  map (fun n => mkPath (is_absolute p) (firstn n (parts p)))
      (rev (seq 0 (List.length (parts p)))).

(** [path.as_posix()] of a relative path. *)
Definition as_posix (p : PurePath) : string :=
  match parts p with
  | [] => "."
  | _ => join "/" (parts p)
  end.

(** [p[-2]] on a Python list. *)
Definition index_minus_2 {A} (p : list A) : result A :=
  if (2 <=? List.length p)%nat then
    match nth_error p (List.length p - 2) with
    | Some x => Ok x
    | None => Raise IndexError
    end
  else Raise IndexError.

Module pipenv_filter.

(** [_get_root(relpath)] of [deplumi/builders/pipenv.py]. *)
Definition _get_root (relpath : PurePath) : result PurePath :=
  if is_absolute relpath then Raise AssertionError
  else
    let p := parents relpath in
    if (List.length p =? 1)%nat then Ok relpath
    else index_minus_2 p.

(** [PipenvPackage._filter(path)]. *)
Definition _filter (path : PurePath) : result bool :=
  result_bind (_get_root path) (fun root =>
    if endswith (name root) ".dist-info" then Ok false
    else if bool_decide (name root = "boto3") || bool_decide (name root = "botocore")
    then Ok false
    else Ok true).

End pipenv_filter.

(* ===================================================================== *)
(** * hashlib: SHA3-256                                                   *)
(* ===================================================================== *)

(** [hashlib.sha3_256(contents).hexdigest()], as FIPS 202 defines it:
    Keccak-f[1600] on 25 lanes of 64 bits, rate 136 bytes. Bytes are
    numbers below 256 in [N]; lanes are numbers below [2^64]. *)
Module hashlib.
Local Open Scope N_scope.

Definition w64 : N := 2 ^ 64.

(** Rotation of a 64-bit lane to the left. *)
Definition rotl (x n : N) : N :=
  N.lor (N.shiftl x n mod w64) (N.shiftr x (64 - n)).

Definition lane (st : list N) (x y : nat) : N :=
  nth (x mod 5 + 5 * (y mod 5))%nat st 0.

Definition xy : list (nat * nat) :=
  flat_map (fun y => map (fun x => (x, y)) (seq 0 5)) (seq 0 5).

Definition rho_offsets : list N :=
  [ 0;  1; 62; 28; 27;
   36; 44;  6; 55; 20;
    3; 10; 43; 25; 39;
   41; 45; 15; 21;  8;
   18;  2; 61; 56; 14].

Definition round_constants : list N :=
  [0x0000000000000001; 0x0000000000008082; 0x800000000000808A;
   0x8000000080008000; 0x000000000000808B; 0x0000000080000001;
   0x8000000080008081; 0x8000000000008009; 0x000000000000008A;
   0x0000000000000088; 0x0000000080008009; 0x000000008000000A;
   0x000000008000808B; 0x800000000000008B; 0x8000000000008089;
   0x8000000000008003; 0x8000000000008002; 0x8000000000000080;
   0x000000000000800A; 0x800000008000000A; 0x8000000080008081;
   0x8000000000008080; 0x0000000080000001; 0x8000000080008008].

Definition theta (a : list N) : list N :=
  let c := fun x => fold_right N.lxor 0 (map (fun y => lane a x y) (seq 0 5)) in
  let d := fun x => N.lxor (c (x + 4)%nat) (rotl (c (x + 1)%nat) 1) in
  map (fun '(x, y) => N.lxor (lane a x y) (d x)) xy.

(** rho and pi together: B[y, 2x+3y] = rot(A[x,y], r[x,y]), read backwards:
    the lane at (X, Y) comes from x = (X + 3Y) mod 5, y = X. *)
Definition rho_pi (a : list N) : list N :=
  map (fun '(X, Y) =>
         let x := ((X + 3 * Y) mod 5)%nat in
         let y := X in
         rotl (lane a x y) (nth (x + 5 * y)%nat rho_offsets 0)) xy.

Definition chi (b : list N) : list N :=
  map (fun '(x, y) =>
         N.lxor (lane b x y)
                (N.land (N.lxor (lane b (x + 1) y) (w64 - 1)) (lane b (x + 2) y))) xy.

Definition iota (rc : N) (a : list N) : list N :=
  match a with
  | [] => []
  | a0 :: rest => N.lxor a0 rc :: rest
  end.

Definition keccak_round (a : list N) (rc : N) : list N :=
  iota rc (chi (rho_pi (theta a))).

Definition keccak_f (a : list N) : list N :=
  fold_left keccak_round round_constants a.

(** SHA3-256: rate 136 bytes, domain suffix 0x06, final bit 0x80. *)
Definition rate : nat := 136.

Fixpoint le_lane (bs : list N) : N :=
  match bs with
  | [] => 0
  | b :: rest => b + 256 * le_lane rest
  end.

Fixpoint lanes_of_bytes (n : nat) (bs : list N) : list N :=
  match n with
  | O => []
  | S n => le_lane (firstn 8 bs) :: lanes_of_bytes n (skipn 8 bs)
  end.

Definition absorb_block (st : list N) (block : list N) : list N :=
  let ls := lanes_of_bytes 25 block in
  keccak_f (map (fun '(s, b) => N.lxor s b) (combine st ls)).

Definition pad (msg : list N) : list N :=
  let q := (rate - List.length msg mod rate)%nat in
  if (q =? 1)%nat then msg ++ [0x86]
  else msg ++ [0x06] ++ repeat 0 (q - 2) ++ [0x80].

Fixpoint absorb (fuel : nat) (st : list N) (bs : list N) : list N :=
  match fuel with
  | O => st
  | S fuel =>
      match bs with
      | [] => st
      | _ => absorb fuel (absorb_block st (firstn rate bs)) (skipn rate bs)
      end
  end.

Definition state_byte (st : list N) (i : nat) : N :=
  N.shiftr (nth (i / 8) st 0) (8 * N.of_nat (i mod 8)) mod 256.

Definition sha3_256_N (msg : list N) : list N :=
  let p := pad msg in
  let st := absorb (S (List.length p)) (repeat 0 25%nat) p in
  map (state_byte st) (seq 0 32).

Definition hexdigit (n : N) : ascii :=
  nth (N.to_nat n) (list_ascii_of_string "0123456789abcdef") "0"%char.

Definition hex (bs : list N) : string :=
  string_of_list_ascii (flat_map (fun b => [hexdigit (b / 16); hexdigit (b mod 16)]) bs).

Definition sha3_256_hexdigest (contents : list byte) : string :=
  hex (sha3_256_N (map Byte.to_N contents)).

End hashlib.
(* ===================================================================== *)
(** * Python values and [repr]                                            *)
(* ===================================================================== *)

(** The values a resolved pulumi output holds here: a string, or [None]
    while the value is not known yet. *)
Inductive pyvalue : Type :=
| VStr (s : string)
| VNone.

Fixpoint contains_char (c : ascii) (s : string) : bool :=
  match s with
  | EmptyString => false
  | String d rest => Ascii.eqb c d || contains_char c rest
  end.

Definition hex2 (n : nat) : string :=
  String (hashlib.hexdigit (N.of_nat (n / 16)))
    (String (hashlib.hexdigit (N.of_nat (n mod 16))) EmptyString).

(** One character of [repr(str)] inside the quotes [q]. Bytes from 0x80 up
    are the UTF-8 encoding of printable characters, which [repr] keeps. *)
Definition repr_char (q c : ascii) : string :=
  if Ascii.eqb c q || Ascii.eqb c "092"%char then String "092"%char (String c EmptyString)
  else if Ascii.eqb c "009"%char then backslash +:+ "t"
  else if Ascii.eqb c "010"%char then backslash +:+ "n"
  else if Ascii.eqb c "013"%char then backslash +:+ "r"
  else if (nat_of_ascii c <? 32)%nat || (nat_of_ascii c =? 127)%nat
       then backslash +:+ "x" +:+ hex2 (nat_of_ascii c)
  else String c EmptyString.

Fixpoint repr_chars (q : ascii) (s : string) : string :=
  match s with
  | EmptyString => EmptyString
  | String c rest => repr_char q c +:+ repr_chars q rest
  end.

(** [repr(s)] for a [str]: single quotes, unless [s] holds a single quote
    and no double quote. *)
Definition repr_str (s : string) : string :=
  let q := if contains_char "039"%char s && negb (contains_char "034"%char s)
           then "034"%char else "039"%char in
  String q (repr_chars q s) +:+ String q EmptyString.

Definition repr (v : pyvalue) : string :=
  match v with
  | VStr s => repr_str s
  | VNone => "None"
  end.

(** [repr] of a tuple. *)
Definition repr_tuple (vs : list pyvalue) : string :=
  match vs with
  | [] => "()"
  | [v] => "(" +:+ repr v +:+ ",)"
  | _ => "(" +:+ join ", " (map repr vs) +:+ ")"
  end.

(** A Python object as the generator sees it: its class (for a class
    object, the class itself) and what [getattr] finds on it, each
    attribute with the value its pulumi output resolves to. *)
Record pytype : Type := mkType {
  ty_module : string;
  ty_qualname : string
}.

Record pyobj : Type := mkObj {
  cls : pytype;
  fields : gmap string pyvalue
}.

Definition getattr (obj : pyobj) (attr : string) : result pyvalue :=
  match fields obj !! attr with
  | Some v => Ok v
  | None =>
      Raise (AttributeError
               ("'" +:+ ty_qualname (cls obj) +:+ "' object has no attribute '"
                    +:+ attr +:+ "'"))
  end.

(* ===================================================================== *)
(** * deplumi/resourcegen.py                                              *)
(* ===================================================================== *)

Module resourcegen.

(** [BUILDERS]: full type name -> (attrs, expression). *)
Definition BUILDERS : gmap string (list string * string) :=
  {[ "pulumi_aws.s3.bucket.Bucket" :=
       (["bucket"], "boto3.resource('s3').Bucket(bucket)") ]}.

Definition HEADER : string :=
  nl +:+ "import boto3" +:+ nl +:+ "import functools" +:+ nl +:+ nl
     +:+ "_resources = {" +:+ nl.

(** [ITEM.format(name=name, attrs=attrs, expr=expr, values=values, args=args)];
    the template does not use [attrs]. *)
Definition ITEM_format (name args expr : string) (values : list pyvalue) : string :=
  nl +:+ "    " +:+ repr_str name +:+ ": ((lambda " +:+ args +:+ ": " +:+ expr
     +:+ "), " +:+ repr_tuple values +:+ ")," +:+ nl.

Definition FOOTER : string :=
  nl +:+ "}" +:+ nl +:+ nl
     +:+ "@functools.lru_cache()" +:+ nl
     +:+ "def __getattr__(name):" +:+ nl
     +:+ "    if name not in _resources:" +:+ nl
     +:+ "        raise AttributeError(f" +:+ dquote
     +:+ "{name} is not a defined resource" +:+ dquote +:+ ")" +:+ nl
     +:+ "    ctor, args = _resources[name]" +:+ nl
     +:+ "    return ctor(" +:+ "*args)" +:+ nl.

(** [get_fqn(obj)]: a class object stands for itself, any other object for
    its class; [cls] is that class in both cases. *)
Definition get_fqn (obj : pyobj) : string :=
  ty_module (cls obj) +:+ "." +:+ ty_qualname (cls obj).

(** [BUILDERS[key]]. *)
Definition BUILDERS_getitem (key : string) : result (list string * string) :=
  match BUILDERS !! key with
  | Some d => Ok d
  | None => Raise (KeyError key)
  end.

(** [[getattr(res, attr) for attr in attrs]], each output resolved. *)
Fixpoint resolve_all (res : pyobj) (attrs : list string) : result (list pyvalue) :=
  match attrs with
  | [] => Ok []
  | attr :: rest =>
      result_bind (getattr res attr) (fun v =>
      result_bind (resolve_all res rest) (fun vs => Ok (v :: vs)))
  end.

(** [ResourceGenerator]: [resources] is a dict, kept in insertion order. *)
Record ResourceGenerator : Type := mkResourceGenerator {
  resources : list (string * pyobj)
}.

(** The loop of [ResourceGenerator.build] over [self.resources.items()]. *)
Fixpoint build_items (items : list (string * pyobj)) (contents : string)
  : result string :=
  match items with
  | [] => Ok contents
  | (name, res) :: rest =>
      result_bind (BUILDERS_getitem (get_fqn res)) (fun '(attrs, expr) =>
      result_bind (resolve_all res attrs) (fun values =>
      build_items rest
        (contents +:+ ITEM_format name (join ", " attrs) expr values)))
  end.

Section Build.

(** [ast.parse]: whether the text is a Python module. *)
Variable ast_parse : string -> bool.

(** [ResourceGenerator.build(self)]. *)
Definition build (self : ResourceGenerator) : result string :=
  result_bind (build_items (resources self) HEADER) (fun contents =>
    let contents := contents +:+ FOOTER in
    if ast_parse contents then Ok contents else Raise SyntaxError).

End Build.

End resourcegen.

(* ===================================================================== *)
(** * The generated accessor module [__res__.py]                          *)
(* ===================================================================== *)

Module accessor.

(** A constructor [lambda args: expr] of the generated [_resources]. *)
Record ctor : Type := mkCtor {
  ctor_args : list string;
  ctor_expr : string
}.

(** The object a constructor call returns: the expression it evaluates, the
    namespace it is evaluated in, and the identity of the new object. *)
Record client : Type := mkClient {
  built_by : string;
  namespace : list (string * pyvalue);
  oid : nat
}.

(** The interpreter state of the process that imported the module: the
    entries of the [lru_cache] of [__getattr__], most recently used first,
    and the next free object identity. *)
Record runtime : Type := mkRuntime {
  lru : list (string * client);
  next_oid : nat
}.

Definition fresh : runtime := mkRuntime [] 0.

(** The dict display of the generated source: one [name: (ctor, values)]
    per item, a later item replacing an earlier one of the same name. *)
Fixpoint display (items : list (string * pyobj)) (d : gmap string (ctor * list pyvalue))
  : result (gmap string (ctor * list pyvalue)) :=
  match items with
  | [] => Ok d
  | (name, res) :: rest =>
      result_bind (resourcegen.BUILDERS_getitem (resourcegen.get_fqn res))
        (fun '(attrs, expr) =>
      result_bind (resourcegen.resolve_all res attrs) (fun values =>
      display rest (<[name := (mkCtor attrs expr, values)]> d)))
  end.

(** [_resources] of the module generated for [gen]. *)
Definition _resources_of (gen : resourcegen.ResourceGenerator)
  : result (gmap string (ctor * list pyvalue)) :=
  display (resourcegen.resources gen) ∅.

(** [functools.lru_cache()]: [maxsize] defaults to 128. *)
Definition maxsize : nat := 128.

Section Lookup.

Variable _resources : gmap string (ctor * list pyvalue).

(** The call of a constructor on the unpacked [args]. *)
Definition call (c : ctor) (args : list pyvalue) (st : runtime)
  : result client * runtime :=
  if (List.length (ctor_args c) =? List.length args)%nat then
    (Ok (mkClient (ctor_expr c) (combine (ctor_args c) args) (next_oid st)),
     mkRuntime (lru st) (S (next_oid st)))
  else (Raise TypeError, st).

(** The body of [__getattr__(name)], without its decorator. *)
Definition __getattr___wrapped (name : string) (st : runtime)
  : result client * runtime :=
  match _resources !! name with
  | None => (Raise (AttributeError (name +:+ " is not a defined resource")), st)
  | Some (c, args) => call c args st
  end.

Fixpoint cache_get (key : string) (cache : list (string * client)) : option client :=
  match cache with
  | [] => None
  | (k, v) :: rest => if String.eqb k key then Some v else cache_get key rest
  end.

Fixpoint cache_remove (key : string) (cache : list (string * client))
  : list (string * client) :=
  match cache with
  | [] => []
  | (k, v) :: rest =>
      if String.eqb k key then rest else (k, v) :: cache_remove key rest
  end.

(** [__getattr__(name)], decorated with [functools.lru_cache()]: a hit
    moves the entry to the front; a miss calls the function, and stores
    the result it returns, dropping the least recently used entry when
    the cache is full. A call that raises stores nothing. Attribute access
    on the module comes here for the names that are no globals of the
    module. *)
Definition __getattr__ (name : string) (st : runtime) : result client * runtime :=
  match cache_get name (lru st) with
  | Some v => (Ok v, mkRuntime ((name, v) :: cache_remove name (lru st)) (next_oid st))
  | None =>
      match __getattr___wrapped name st with
      | (Ok v, st') =>
          let kept := if (maxsize <=? List.length (lru st'))%nat
                      then removelast (lru st') else lru st' in
          (Ok v, mkRuntime ((name, v) :: kept) (next_oid st'))
      | (Raise e, st') => (Raise e, st')
      end
  end.

(** A sequence of lookups, one after the other. *)
Fixpoint lookups (names : list string) (st : runtime) : runtime :=
  match names with
  | [] => st
  | n :: rest => lookups rest (snd (__getattr__ n st))
  end.

End Lookup.

End accessor.

(* ===================================================================== *)
(** * zipfile and the directory trees it reads                            *)
(* ===================================================================== *)

(** The six fields [time.localtime(st_mtime)[0:6]] of a modification time,
    which is also what a [ZipInfo] keeps as [date_time]. *)
Record date_time : Type := mkDate {
  year : Z; month : Z; day : Z; hour : Z; minute : Z; second : Z
}.

(** A file or a directory below a source tree, with what [os.stat] and a
    read return for it. The children of a directory are in the order
    [os.scandir] lists them; their names are distinct. *)
#[local] Unset Elimination Schemes.
Inductive node : Type :=
| File (fname : string) (st_mtime : date_time) (data : list byte)
| Dir (dname : string) (st_mtime : date_time) (children : list node).
#[local] Set Elimination Schemes.

Definition node_name (n : node) : string :=
  match n with File f _ _ => f | Dir d _ _ => d end.

(** What [source.rglob('*')] yields, with [child.relative_to(source)]. *)
Record child : Type := mkChild {
  arcname : PurePath;
  child_is_dir : bool;
  child_mtime : date_time;
  child_data : list byte
}.

Definition child_of (prefix : list string) (n : node) : child :=
  match n with
  | File f t d => mkChild (relpath_of (prefix ++ [f])) false t d
  | Dir d t _ => mkChild (relpath_of (prefix ++ [d])) true t []
  end.

(** The entries below the directories inside [n], directory by directory in
    pre-order, each directory's entries in listing order. *)
Fixpoint descend (prefix : list string) (n : node) : list child :=
  match n with
  | File _ _ _ => []
  | Dir d _ entries =>
      map (child_of (prefix ++ [d])) entries
      ++ flat_map (descend (prefix ++ [d])) entries
  end.

(** [source.rglob('*')] on the directory whose entries are [entries]:
    ['**'] visits [source] and then every directory below it, and ['*']
    lists each visited directory. *)
Definition rglob (entries : list node) : list child :=
  map (child_of []) entries ++ flat_map (descend []) entries.

(** An entry of a zip archive: name, timestamp and bytes. *)
Record zentry : Type := mkEntry {
  filename : string;
  entry_date_time : date_time;
  payload : list byte
}.

Module zipfile.

(** The [date_time] a [ZipInfo] gets when none is given. *)
Definition minimum_date : date_time := mkDate 1980 1 1 0 0 0.

(** [ZipInfo(filename, date_time)]. *)
Definition ZipInfo (filename : string) (dt : date_time) : result (string * date_time) :=
  if (year dt <? 1980)%Z
  then Raise (ValueError "ZIP does not support timestamps before 1980")
  else Ok (filename, dt).

(** [zf.write(child, arcname)]: [ZipInfo.from_file] takes the timestamp
    from the modification time of the file and ends the name of a directory
    in a slash; the entry of a directory has no bytes. The date field of
    the header holds the years up to 2107: packing a later one raises
    [struct.error]. *)
Definition write (c : child) (arcname : string) (zf : list zentry)
  : result unit * list zentry :=
  let arcname := if child_is_dir c then arcname +:+ "/" else arcname in
  match ZipInfo arcname (child_mtime c) with
  | Raise e => (Raise e, zf)
  | Ok (fn, dt) =>
      if (2107 <? year dt)%Z then (Raise StructError, zf)
      else (Ok tt, zf ++ [mkEntry fn dt (if child_is_dir c then [] else child_data c)])
  end.

(** [zf.writestr(zi, data)] with [data] a [str], written as its bytes. *)
Definition writestr (zi : string * date_time) (data : string) (zf : list zentry)
  : result unit * list zentry :=
  (Ok tt, zf ++ [mkEntry (fst zi) (snd zi) (list_byte_of_string data)]).

End zipfile.

(* ===================================================================== *)
(** * The world: file system, environment, child processes                *)
(* ===================================================================== *)

(** The arguments [asyncio.create_subprocess_exec] is called with. *)
Record command : Type := mkCommand {
  argv : list string;
  env : option (gmap string string);
  cwd : option string;
  stdout_pipe : bool;
  stderr_pipe : bool
}.

(** What a child process did: its exit status and what it wrote. *)
Record completed : Type := mkCompleted {
  returncode : Z;
  out : list byte;
  err : list byte
}.

Record world : Type := mkWorld {
  environ : gmap string string;            (* os.environ *)
  files : gmap string (list byte);         (* regular files, with their bytes *)
  dirs : gset string;                      (* directories *)
  trees : gmap string (list node);         (* what a walk of a directory finds *)
  spawned : list command;                  (* child processes started, in order *)
  zipfiles : gmap string (list zentry)     (* archives written, by path *)
}.

Definition set_files (f : gmap string (list byte)) (w : world) : world :=
  mkWorld (environ w) f (dirs w) (trees w) (spawned w) (zipfiles w).
Definition set_dirs (d : gset string) (w : world) : world :=
  mkWorld (environ w) (files w) d (trees w) (spawned w) (zipfiles w).
Definition set_spawned (s : list command) (w : world) : world :=
  mkWorld (environ w) (files w) (dirs w) (trees w) s (zipfiles w).
Definition set_zipfiles (z : gmap string (list zentry)) (w : world) : world :=
  mkWorld (environ w) (files w) (dirs w) (trees w) (spawned w) z.

(** Computations that read and change the world and may raise. The world
    an exception leaves behind is kept. *)
Definition M (A : Type) : Type := world -> result A * world.

Definition ret {A} (a : A) : M A := fun w => (Ok a, w).
Definition raise {A} (e : exn) : M A := fun w => (Raise e, w).
Definition bind {A B} (m : M A) (k : A -> M B) : M B :=
  fun w => match m w with
           | (Ok a, w') => k a w'
           | (Raise e, w') => (Raise e, w')
           end.
Definition lift {A} (r : result A) : M A := fun w => (r, w).

Notation "'let*' x ':=' m 'in' k" := (bind m (fun x => k))
  (at level 10, x pattern, m at level 99, k at level 200).
Notation "m ';;' k" := (bind m (fun _ => k))
  (at level 100, k at level 200, right associativity).

(** [Path / name]. *)
Definition pathjoin (p name : string) : string := p +:+ "/" +:+ name.

(** [path.is_file()], [path.is_dir()], [path.exists()], [path.read_bytes()]. *)
Definition is_file (p : string) (w : world) : bool := bool_decide (is_Some (files w !! p)).
Definition is_dir (p : string) (w : world) : bool := bool_decide (p ∈ dirs w).
Definition exists_ (p : string) (w : world) : bool := is_dir p w || is_file p w.

Definition read_bytes (p : string) : M (list byte) :=
  fun w => match files w !! p with
           | Some b => (Ok b, w)
           | None => (Raise (FileNotFoundError p), w)
           end.

(** [path.mkdir()] below the directory [parent]. *)
Definition mkdir (p parent : string) : M unit :=
  fun w =>
    if exists_ p w then (Raise (FileExistsError p), w)
    else if is_dir parent w then (Ok tt, set_dirs ({[p]} ∪ dirs w) w)
    else (Raise (FileNotFoundError p), w).

(** [path.mkdir(parents=True, exist_ok=True)], [ancestors] being the
    directories above [p]. *)
Definition mkdir_parents_exist_ok (p : string) (ancestors : list string) : M unit :=
  fun w =>
    if is_dir p w then (Ok tt, w)
    else if is_file p w then (Raise (FileExistsError p), w)
    else if existsb (fun a => is_file a w) ancestors
         then (Raise (OSError "Not a directory"), w)
    else (Ok tt, set_dirs ({[p]} ∪ list_to_set ancestors ∪ dirs w) w).

(* ===================================================================== *)
(** * deplumi/builders/pipenv.py                                          *)
(* ===================================================================== *)

Module PipenvPackage.

Import pipenv_filter.

(** [mkzinfo(name, contents)]: [date_time] defaults to the minimum date. *)
Definition mkzinfo (name contents : string) : string * date_time :=
  (name, zipfile.minimum_date).

Record PipenvPackage : Type := mkPackage {
  root : string;
  resgen : resourcegen.ResourceGenerator
}.

Definition pipfile (self : PipenvPackage) : string := pathjoin (root self) "Pipfile".
Definition lockfile (self : PipenvPackage) : string := pathjoin (root self) "Pipfile.lock".

Definition buildroot : string := "/tmp/deplumi".

(** [get_builddir(self)]. *)
Definition get_builddir (self : PipenvPackage) : M string :=
  mkdir_parents_exist_ok buildroot ["/"; "/tmp"] ;;
  let* contents := read_bytes (lockfile self) in
  let dirname := hashlib.sha3_256_hexdigest contents in
  ret (pathjoin buildroot dirname).

(** Keyword arguments handed on to [create_subprocess_exec]. *)
Record popen_opts : Type := mkOpts {
  opt_env : option (gmap string string);
  opt_cwd : option string;
  opt_stdout : bool;   (* stdout=subprocess.PIPE *)
  opt_stderr : bool    (* stderr=subprocess.PIPE *)
}.

Definition no_opts : popen_opts := mkOpts None None false false.

(** The loop of [_build_zip] over the children of one source. *)
Fixpoint write_children (filter : option (PurePath -> result bool))
  (cs : list child) (zf : list zentry) : result unit * list zentry :=
  match cs with
  | [] => (Ok tt, zf)
  | c :: rest =>
      let keep := match filter with
                  | None => Ok true
                  | Some f => f (arcname c)
                  end in
      match keep with
      | Raise e => (Raise e, zf)
      | Ok false => write_children filter rest zf
      | Ok true =>
          match zipfile.write c (as_posix (arcname c)) zf with
          | (Raise e, zf') => (Raise e, zf')
          | (Ok _, zf') => write_children filter rest zf'
          end
      end
  end.

(** The loop of [_build_zip] over [sources], each given by its entries. *)
Fixpoint write_sources (filter : option (PurePath -> result bool))
  (sources : list (list node)) (zf : list zentry) : result unit * list zentry :=
  match sources with
  | [] => (Ok tt, zf)
  | source :: rest =>
      match write_children filter (rglob source) zf with
      | (Raise e, zf') => (Raise e, zf')
      | (Ok _, zf') => write_sources filter rest zf'
      end
  end.

(** The loop of [_build_zip] over [virtuals.items()]. *)
Fixpoint write_virtuals (virtuals : list (string * string)) (zf : list zentry)
  : result unit * list zentry :=
  match virtuals with
  | [] => (Ok tt, zf)
  | (name, data) :: rest =>
      let zi := mkzinfo name data in
      match zipfile.writestr zi data zf with
      | (Raise e, zf') => (Raise e, zf')
      | (Ok _, zf') => write_virtuals rest zf'
      end
  end.

(** The body of the [with zipfile.ZipFile(dest, 'w') as zf] block. *)
Definition zip_body (sources : list (list node)) (virtuals : list (string * string))
  (filter : option (PurePath -> result bool)) : result unit * list zentry :=
  match write_sources filter sources [] with
  | (Raise e, zf) => (Raise e, zf)
  | (Ok _, zf) => write_virtuals virtuals zf
  end.

(** [_build_zip(self, dest, *sources, virtuals, filter)]: the archive is
    closed, with what was written, also when the block raises. A path that
    is no directory has nothing to walk. *)
Definition _build_zip (dest : string) (sources : list string)
  (virtuals : list (string * string)) (filter : option (PurePath -> result bool))
  : M unit :=
  fun w =>
    let '(r, zf) := zip_body (map (fun s => default [] (trees w !! s)) sources)
                             virtuals filter in
    (r, set_zipfiles (<[dest := zf]> (zipfiles w)) w).

Section Process.

(** The operating system: whether the program of a command starts, and
    what the child process does, in the world it is started in. *)
Variable os_exec : world -> command -> result completed.

(** The name [tempfile.NamedTemporaryFile] picks. *)
Variable ntf_name : string.

(** [ast.parse]. *)
Variable ast_parse : string -> bool.

(** [_call_subprocess(self, *cmd, check=True, **opts)]. *)
Definition _call_subprocess (cmd : list string) (check : bool) (opts : popen_opts)
  : M (option (list byte) * option (list byte)) :=
  fun w =>
    let c := mkCommand cmd (opt_env opts) (opt_cwd opts)
                       (opt_stdout opts) (opt_stderr opts) in
    match os_exec w c with
    | Raise e => (Raise e, w)
    | Ok proc =>
        let w' := set_spawned (spawned w ++ [c]) w in
        let stdout := if opt_stdout opts then Some (out proc) else None in
        let stderr := if opt_stderr opts then Some (err proc) else None in
        if check && negb (returncode proc =? 0)%Z
        then (Raise SubprocessError, w')
        else (Ok (stdout, stderr), w')
    end.

(** [_call_pipenv(self, *cmd, **opts)]: the entries of [os.environ] come
    last in the dict display and win. *)
Definition _call_pipenv (self : PipenvPackage) (cmd : list string) (check : bool)
  (opts : popen_opts) : M (option (list byte) * option (list byte)) :=
  let* builddir := get_builddir self in
  fun w =>
    let env : gmap string string :=
      environ w ∪ list_to_map [("PIPENV_NOSPIN", "1");
                               ("PIPENV_PIPFILE", pipfile self);
                               ("PIPENV_VIRTUALENV", builddir);
                               ("PIPENV_VERBOSITY", "-1")] in
    _call_subprocess ("pipenv" :: cmd) check
      (mkOpts (Some env) (Some (root self)) (opt_stdout opts) (opt_stderr opts)) w.

(** [with tempfile.NamedTemporaryFile() as ntf: ntf.write(out); ntf.flush();
    body]: the file exists, under a name not in use, while [body] runs, and
    is removed when the block is left, also by an exception. *)
Definition with_tempfile {A} (contents : list byte) (body : M A) : M A :=
  fun w =>
    let '(r, w') := body (set_files (<[ntf_name := contents]> (files w)) w) in
    (r, set_files (delete ntf_name (files w')) w').

(** [warmup(self)]. *)
Definition warmup (self : PipenvPackage) : M unit :=
  let* builddir := get_builddir self in
  fun w =>
    if negb (exists_ builddir w) then
      (mkdir builddir buildroot ;;
       let* (out, _) := _call_pipenv self ["lock"; "--requirements"] true
                           (mkOpts None None true false) in
       match out with
       | None => raise TypeError
       | Some out =>
           with_tempfile out
             (_call_subprocess ["pip"; "install"; "--target"; builddir; "-r"; ntf_name]
                               true no_opts) ;;
           ret tt
       end) w
    else ret tt w.

(** [build(self)]: the arguments of [_build_zip] are evaluated first, the
    accessor module among them. *)
Definition build (self : PipenvPackage) : M string :=
  let* builddir := get_builddir self in
  let ziproot := builddir in
  let dest := builddir +:+ ".zip" in
  let* res := lift (resourcegen.build ast_parse (resgen self)) in
  _build_zip dest [ziproot; root self] [("__res__.py", res)] (Some _filter) ;;
  ret dest.

End Process.

End PipenvPackage.

(* ===================================================================== *)
(** * deplumi/__init__.py                                                 *)
(* ===================================================================== *)

(** [pulumi.FileAsset(path)]. *)
Record FileAsset : Type := mkFileAsset { asset_path : string }.

Section Orchestrator.

Variable os_exec : world -> command -> result completed.
Variable ntf_name : string.
Variable ast_parse : string -> bool.

(** [Path(root).resolve()]. *)
Variable resolve : string -> string.

(** [PipenvPackage(root, resgen)]. *)
Definition PipenvPackage_init (root : string) (resgen : resourcegen.ResourceGenerator)
  : PipenvPackage.PipenvPackage :=
  PipenvPackage.mkPackage (resolve root) resgen.

(** [build_zip_package(sourcedir, resgen)]. *)
Definition build_zip_package (sourcedir : string)
  (resgen : resourcegen.ResourceGenerator) : M FileAsset :=
  fun w =>
    if is_file (pathjoin sourcedir "Pipfile") w then
      let package := PipenvPackage_init sourcedir resgen in
      (PipenvPackage.warmup os_exec ntf_name package ;;
       let* bundle := PipenvPackage.build ast_parse package in
       ret (mkFileAsset bundle)) w
    else raise (OSError "Unable to detect package type") w.

End Orchestrator.

(* ===================================================================== *)
(** * deplumi/__init__.py: the lambda bucket and the functions of a package *)
(* ===================================================================== *)

(** [str.replace(old, new)]: the occurrences of [old] are replaced from the
    left, none overlapping another; an empty [old] matches before every
    character and at the end. *)
Fixpoint drop_string (n : nat) (s : string) : string :=
  match n, s with
  | O, _ => s
  | S n, String _ rest => drop_string n rest
  | S _, EmptyString => EmptyString
  end.

Fixpoint replace_from (fuel : nat) (old new s : string) : string :=
  match fuel with
  | O => s
  | S fuel =>
      match s with
      | EmptyString => EmptyString
      | String c rest =>
          if String.prefix old s
          then new +:+ replace_from fuel old new (drop_string (String.length old) s)
          else String c (replace_from fuel old new rest)
      end
  end.

Fixpoint replace_between (new s : string) : string :=
  match s with
  | EmptyString => EmptyString
  | String c rest => String c (new +:+ replace_between new rest)
  end.

Definition replace (s old new : string) : string :=
  match old with
  | EmptyString => new +:+ replace_between new s
  | _ => replace_from (String.length s) old new s
  end.

Module deplumi.

(** A region inside an f-string: [None] prints as its name. *)
Definition format_region (region : option string) : string :=
  match region with
  | Some r => r
  | None => "None"
  end.

(** The arguments of one [s3.Bucket(...)]. *)
Record s3_Bucket : Type := mkBucket {
  bucket_resource_name : string;
  bucket_region : option string;
  versioning_enabled : bool;
  opts_region : option string          (* opts(region=region) *)
}.

(** The module state: the dict [_lambda_buckets], and the buckets declared
    so far, in order. *)
Record buckets : Type := mkBuckets {
  _lambda_buckets : gmap (option string) s3_Bucket;
  declared : list s3_Bucket
}.

Definition no_buckets : buckets := mkBuckets ∅ [].

Section LambdaBucket.

(** [putils.get_region]. *)
Variable get_region : pyobj -> option string.

(** [get_lambda_bucket(region=None, resource=None)]. *)
Definition get_lambda_bucket (region : option string) (resource : option pyobj)
  (st : buckets) : s3_Bucket * buckets :=
  let region := match resource with
                | Some r => get_region r
                | None => region
                end in
  match _lambda_buckets st !! region with
  | Some b => (b, st)
  | None =>
      let b := mkBucket ("lambda-bucket-" +:+ format_region region) region true region in
      (b, mkBuckets (<[region := b]> (_lambda_buckets st)) (declared st ++ [b]))
  end.

(** One request after the other. *)
Fixpoint get_lambda_buckets (requests : list (option string * option pyobj))
  (st : buckets) : buckets :=
  match requests with
  | [] => st
  | (region, resource) :: rest =>
      get_lambda_buckets rest (snd (get_lambda_bucket region resource st))
  end.

End LambdaBucket.

(** What [Package.function] reads off [self]: [self.bucket.bucket],
    [self.object.key], [self.object.version_id] and [self.role.arn]. *)
Record Package : Type := mkPackageOutputs {
  bucket_bucket : string;
  object_key : string;
  object_version_id : string;
  role_arn : string
}.

(** The arguments of one [lambda_.Function(...)]. *)
Record lambda_Function : Type := mkFunction {
  fn_resource_name : string;
  fn_handler : string;
  fn_s3_bucket : string;
  fn_s3_key : string;
  fn_s3_object_version : string;
  fn_runtime : string;
  fn_role : string;
  fn_kwargs : list (string * pyvalue)
}.

(** The keywords the call of [lambda_.Function] in [Package.function]
    writes out: a key of [**kwargs] that repeats one is a [TypeError]. *)
Definition function_keywords : list string :=
  ["handler"; "s3_bucket"; "s3_key"; "s3_object_version"; "runtime"; "role"].

Section PackageFunction.

(** Whether [lambda_.Function] takes the other keyword arguments. *)
Variable Function_accepts : list (string * pyvalue) -> bool.

(** [Package.function(self, name, func, **kwargs)]. *)
Definition function (self : Package) (name func : string)
  (kwargs : list (string * pyvalue)) : result lambda_Function :=
  let func := replace func ":" "." in
  if existsb (fun k => bool_decide (In k function_keywords)) (map fst kwargs)
  then Raise TypeError
  else if Function_accepts kwargs
  then Ok (mkFunction name func (bucket_bucket self) (object_key self)
             (object_version_id self) "python3.7" (role_arn self) kwargs)
  else Raise TypeError.

End PackageFunction.

End deplumi.

(* ===================================================================== *)
(** * Notions the statements use, and the inputs of the examples          *)
(* ===================================================================== *)

(** The names the default filter leaves out, as the spec words them. *)
Definition runtime_supplied (top : string) : Prop :=
  (exists pre, top = pre +:+ ".dist-info") \/ top = "boto3" \/ top = "botocore".

Definition excluded_top (top : string) : bool :=
  endswith top ".dist-info"
  || bool_decide (top = "boto3") || bool_decide (top = "botocore").

(** The tree of the spec's example: a distribution's metadata, a package the
    runtime supplies, and the application. *)
Definition example_tree : list node :=
  [ Dir "foo.dist-info" (mkDate 2020 5 17 10 0 0)
        [File "METADATA" (mkDate 2020 5 17 10 0 0) (list_byte_of_string "Name: foo")];
    Dir "boto3" (mkDate 2020 5 17 10 0 1)
        [File "client.py" (mkDate 2020 5 17 10 0 1) (list_byte_of_string "pass")];
    Dir "app" (mkDate 2021 1 2 3 4 5)
        [File "handler.py" (mkDate 2021 1 2 3 4 6) (list_byte_of_string "import __res__")] ].

(** The command [_call_subprocess] starts for [cmd] and [opts]. *)
Definition command_of (cmd : list string) (opts : PipenvPackage.popen_opts) : command :=
  mkCommand cmd (PipenvPackage.opt_env opts) (PipenvPackage.opt_cwd opts)
            (PipenvPackage.opt_stdout opts) (PipenvPackage.opt_stderr opts).

(** Two children that differ in exit status and in what they wrote. *)
Definition exit_1 : completed :=
  mkCompleted 1 (list_byte_of_string "collected") (list_byte_of_string "no space left").
Definition exit_2 : completed :=
  mkCompleted 2 [] (list_byte_of_string "usage: pip").

Definition empty_world : world := mkWorld ∅ ∅ ∅ ∅ [] ∅.

Definition piped : PipenvPackage.popen_opts :=
  PipenvPackage.mkOpts None None true true.

(** The lock file of [self] can be read and holds [lock]; nothing that is
    not a directory stands where the build root goes. *)
Definition lock_ready (self : PipenvPackage.PipenvPackage) (lock : list byte)
  (w : world) : Prop :=
  files w !! PipenvPackage.lockfile self = Some lock
  /\ is_file PipenvPackage.buildroot w = false
  /\ is_file "/" w = false
  /\ is_file "/tmp" w = false.

(** The build directory of a lock file: the build root, then the digest. *)
Definition builddir_of (lock : list byte) : string :=
  pathjoin PipenvPackage.buildroot (hashlib.sha3_256_hexdigest lock).

(** The world once the build root is there. *)
Definition ensure_buildroot (w : world) : world :=
  if is_dir PipenvPackage.buildroot w then w
  else set_dirs ({[PipenvPackage.buildroot]} ∪ list_to_set ["/"; "/tmp"] ∪ dirs w) w.

(** The resolver call of [warmup], in the world it is started in. *)
Definition resolver_cmd (self : PipenvPackage.PipenvPackage) (lock : list byte)
  (w : world) : command :=
  mkCommand ["pipenv"; "lock"; "--requirements"]
    (Some (environ w ∪ list_to_map [("PIPENV_NOSPIN", "1");
                                    ("PIPENV_PIPFILE", PipenvPackage.pipfile self);
                                    ("PIPENV_VIRTUALENV", builddir_of lock);
                                    ("PIPENV_VERBOSITY", "-1")]))
    (Some (PipenvPackage.root self)) true false.

(** The installer call of [warmup]. *)
Definition installer_cmd (ntf_name : string) (lock : list byte) : command :=
  mkCommand ["pip"; "install"; "--target"; builddir_of lock; "-r"; ntf_name]
    None None false false.

(** What [warmup] does when the build directory is not there yet, step by
    step: make the directory, run the resolver, write its output to the
    temporary file, run the installer, remove the temporary file. *)
Definition warmup_cold (os_exec : world -> command -> result completed)
  (ntf_name : string) (self : PipenvPackage.PipenvPackage) (lock : list byte)
  (w : world) : result unit * world :=
  let w0 := ensure_buildroot w in
  let w1 := set_dirs ({[builddir_of lock]} ∪ dirs w0) w0 in
  match os_exec w1 (resolver_cmd self lock w1) with
  | Raise e => (Raise e, w1)
  | Ok p =>
      let w2 := set_spawned (spawned w1 ++ [resolver_cmd self lock w1]) w1 in
      if negb (returncode p =? 0)%Z then (Raise SubprocessError, w2)
      else
        let w3 := set_files (<[ntf_name := out p]> (files w2)) w2 in
        match os_exec w3 (installer_cmd ntf_name lock) with
        | Raise e => (Raise e, set_files (delete ntf_name (files w3)) w3)
        | Ok q =>
            let w4 := set_spawned (spawned w3 ++ [installer_cmd ntf_name lock]) w3 in
            let w5 := set_files (delete ntf_name (files w4)) w4 in
            if negb (returncode q =? 0)%Z then (Raise SubprocessError, w5)
            else (Ok tt, w5)
        end
  end.

(** A package below [/srv/app] with a lock file, and an operating system
    on which every child exits with status zero. *)
Definition demo_lock : list byte := list_byte_of_string "{}".

Definition demo_package : PipenvPackage.PipenvPackage :=
  PipenvPackage.mkPackage "/srv/app" (resourcegen.mkResourceGenerator []).

Definition demo_world : world :=
  mkWorld ∅
    (<["/srv/app/Pipfile" := list_byte_of_string "[packages]"]>
       (<["/srv/app/Pipfile.lock" := demo_lock]> ∅))
    ∅ ∅ [] ∅.

Definition all_succeed (w : world) (c : command) : result completed :=
  Ok (mkCompleted 0 (list_byte_of_string "requests==2.22.0") []).

(** An operating system on which the resolver succeeds and the installer
    exits with status 1. *)
Definition installer_fails (w : world) (c : command) : result completed :=
  match argv c with
  | "pip" :: _ => Ok (mkCompleted 1 [] (list_byte_of_string "No matching distribution"))
  | _ => Ok (mkCompleted 0 (list_byte_of_string "requests==2.22.0") [])
  end.


(** The values of [attrs] on a well-formed handle. *)
Definition values_of (res : pyobj) (attrs : list string) : list pyvalue :=
  map (fun attr => default VNone (fields res !! attr)) attrs.

(** The text of one item of a registered handle. *)
Definition item_text (item : string * pyobj) : string :=
  match resourcegen.BUILDERS !! resourcegen.get_fqn (snd item) with
  | Some (attrs, expr) =>
      resourcegen.ITEM_format (fst item) (join ", " attrs) expr
        (values_of (snd item) attrs)
  | None => ""
  end.

Fixpoint items_text (items : list (string * pyobj)) : string :=
  match items with
  | [] => ""
  | item :: rest => item_text item +:+ items_text rest
  end.

(** The module generated for [gen]. *)
Definition module_text (gen : resourcegen.ResourceGenerator) : string :=
  resourcegen.HEADER +:+ items_text (resourcegen.resources gen) +:+ resourcegen.FOOTER.

(** The registered bucket class, a class without a descriptor, and
    handles of both. *)
Definition Bucket : pytype := mkType "pulumi_aws.s3.bucket" "Bucket".
Definition Queue : pytype := mkType "pulumi_aws.sqs.queue" "Queue".

Definition bucket_handle (bucket : string) : pyobj :=
  mkObj Bucket {[ "bucket" := VStr bucket ]}.
Definition queue_handle (url : string) : pyobj :=
  mkObj Queue {[ "id" := VStr url ]}.

Definition one_bucket : resourcegen.ResourceGenerator :=
  resourcegen.mkResourceGenerator [("bucket", bucket_handle "my-bucket")].

Definition bucket_and_queue : resourcegen.ResourceGenerator :=
  resourcegen.mkResourceGenerator
    [("bucket", bucket_handle "my-bucket"); ("jobs", queue_handle "https://sqs/jobs")].

(** A cached object is one its constructor builds. *)
Definition built_from (c : accessor.ctor) (args : list pyvalue)
  (obj : accessor.client) : Prop :=
  accessor.built_by obj = accessor.ctor_expr c
  /\ accessor.namespace obj = combine (accessor.ctor_args c) args.

(** The cache of a running process: no name twice, and under each name an
    object built by the constructor [_resources] has for the name. *)
Definition sound (_resources : gmap string (accessor.ctor * list pyvalue))
  (st : accessor.runtime) : Prop :=
  List.NoDup (map fst (accessor.lru st))
  /\ forall k v, In (k, v) (accessor.lru st) ->
       exists c args, _resources !! k = Some (c, args) /\ built_from c args v.

(** The cache holds at most [maxsize] entries, and every object in it has
    an identity of its own, given out before the next free one. *)
Definition within_capacity (st : accessor.runtime) : Prop :=
  List.length (accessor.lru st) <= accessor.maxsize
  /\ List.NoDup (map (fun kv => accessor.oid (snd kv)) (accessor.lru st))
  /\ forall kv, In kv (accessor.lru st) -> accessor.oid (snd kv) < accessor.next_oid st.

(** 129 names, each bound to a bucket of its own. *)
Definition many_names : list string :=
  map (fun i => string_of_list_ascii (repeat "r"%char (S i))) (seq 0 129).

Definition many_buckets : resourcegen.ResourceGenerator :=
  resourcegen.mkResourceGenerator (map (fun n => (n, bucket_handle n)) many_names).

Definition many_resources : gmap string (accessor.ctor * list pyvalue) :=
  match accessor._resources_of many_buckets with
  | Ok d => d
  | Raise _ => ∅
  end.

(** The spec's example: the bindings map with the one bucket. *)
Definition one_bucket_resources : gmap string (accessor.ctor * list pyvalue) :=
  {[ "bucket" := (accessor.mkCtor ["bucket"] "boto3.resource('s3').Bucket(bucket)",
                  [VStr "my-bucket"]) ]}.









(** What a walk of [source] finds in [w]. *)
Definition tree (w : world) (source : string) : list node :=
  default [] (trees w !! source).








#[local] Instance byte_eq_decision : EqDecision byte := Byte.byte_eq_dec.

(** The number of files and directories of a tree. *)
Fixpoint node_count (n : node) : nat :=
  match n with
  | File _ _ _ => 1
  | Dir _ _ entries => S (list_sum (map node_count entries))
  end.

(** No directory of the tree lists a name twice. *)
#[local] Unset Elimination Schemes.
Inductive well_named : node -> Prop :=
| well_named_file f t d : well_named (File f t d)
| well_named_dir d t entries :
    List.NoDup (map node_name entries) ->
    Forall well_named entries ->
    well_named (Dir d t entries).
#[local] Set Elimination Schemes.

(** The components of the path a child is written under. *)
Definition child_parts (c : child) : list string := parts (arcname c).

(** Whether the default filter lets a child of a walk into the archive. *)
Definition included (c : child) : bool :=
  match child_parts c with
  | top :: _ => negb (excluded_top top)
  | [] => false
  end.

(** The characters of a hexadecimal digest. *)
Definition hex_digits : list ascii := list_ascii_of_string "0123456789abcdef".

(** [str.replace] of one character by another, character by character. *)
Fixpoint replace_char (old new : ascii) (s : string) : string :=
  match s with
  | EmptyString => EmptyString
  | String c rest =>
      String (if Ascii.eqb c old then new else c) (replace_char old new rest)
  end.



Definition queue_package : PipenvPackage.PipenvPackage :=
  PipenvPackage.mkPackage "/srv/app" bucket_and_queue.


(** A source directory with a [Pipfile] and no lock file. *)
Definition unlocked_world : world :=
  mkWorld ∅ {[ "/srv/app/Pipfile" := list_byte_of_string "[packages]" ]} ∅ ∅ [] ∅.

(** The region a request to [get_lambda_bucket] is for: the region of the
    resource when one is given. *)
Definition effective_region (get_region : pyobj -> option string)
  (request : option string * option pyobj) : option string :=
  match snd request with
  | Some r => get_region r
  | None => fst request
  end.

(** The bucket [get_lambda_bucket] declares for a region. *)
Definition lambda_bucket (region : option string) : deplumi.s3_Bucket :=
  deplumi.mkBucket ("lambda-bucket-" +:+ deplumi.format_region region) region true region.

(** The dict [_lambda_buckets] and the declared buckets tell the same: one
    bucket for each region, the one [get_lambda_bucket] declares for it. *)
Definition buckets_consistent (st : deplumi.buckets) : Prop :=
  (forall r b, deplumi._lambda_buckets st !! r = Some b ->
               b = lambda_bucket r /\ In b (deplumi.declared st))
  /\ (forall b, In b (deplumi.declared st) ->
                deplumi._lambda_buckets st !! deplumi.bucket_region b = Some b)
  /\ List.NoDup (map deplumi.bucket_region (deplumi.declared st)).

(** A package as [Package.function] reads it. *)
Definition demo_outputs : deplumi.Package :=
  deplumi.mkPackageOutputs "lambda-bucket-eu-west-1-4f2a" "api-code" "3HL4kqtJlcpXroDTDmJ"
    "arn:aws:iam::123456789012:role/api-role".

(** The children of the sources the default filter lets in, in the order
    of the walks. *)
Definition kept (sources : list (list node)) : list child :=
  flat_map (fun s => List.filter included (rglob s)) sources.



(* ===================================================================== *)
(** * Strings: [endswith] against "ends in"                               *)
(* ===================================================================== *)

Lemma substring_all (s : string) : String.substring 0 (String.length s) s = s.
Proof. induction s as [|c s IH]; simpl; [reflexivity | now rewrite IH]. Qed.

Lemma substring_skip (pre s : string) (m : nat) :
  String.substring (String.length pre) m (pre +:+ s) = String.substring 0 m s.
Proof. induction pre as [|c pre IH]; simpl; [reflexivity | exact IH]. Qed.

Lemma substring_split (s : string) (n : nat) :
  (n <= String.length s)%nat ->
  s = String.substring 0 n s +:+ String.substring n (String.length s - n) s.
Proof.
  revert n. induction s as [|c s IH]; intros n Hn.
  - destruct n; reflexivity.
  - destruct n as [|n].
    + rewrite Nat.sub_0_r, substring_all. reflexivity.
    + change (String c s = String c (String.substring 0 n s
                +:+ String.substring n (String.length s - n) s)).
      f_equal. apply IH. simpl in Hn. lia.
Qed.

Lemma length_append (s t : string) :
  String.length (s +:+ t) = (String.length s + String.length t)%nat.
Proof.
  induction s as [|c s IH]; [reflexivity|].
  change (S (String.length (s +:+ t)) = S (String.length s + String.length t)).
  now rewrite IH.
Qed.

(** [endswith] decides "[s] ends in [suffix]". *)
Lemma endswith_spec (s suffix : string) :
  endswith s suffix = true <-> exists pre, s = pre +:+ suffix.
Proof.
  unfold endswith. rewrite andb_true_iff, Nat.leb_le, String.eqb_eq. split.
  - intros [Hlen Hsub].
    exists (String.substring 0 (String.length s - String.length suffix) s).
    pose proof (substring_split s (String.length s - String.length suffix)) as H.
    replace (String.length s - (String.length s - String.length suffix))%nat
      with (String.length suffix) in H by lia.
    rewrite Hsub in H. apply H. lia.
  - intros [pre ->]. rewrite length_append. split; [lia|].
    replace (String.length pre + String.length suffix - String.length suffix)%nat
      with (String.length pre) by lia.
    rewrite substring_skip. apply substring_all.
Qed.

(* ===================================================================== *)
(** * The default filter                                                  *)
(* ===================================================================== *)

Lemma parents_length (p : PurePath) :
  List.length (parents p) = List.length (parts p).
Proof. unfold parents. now rewrite length_map, length_rev, length_seq. Qed.

(** The root of a relative path is its first component. *)
Lemma get_root_first (top : string) (rest : list string) :
  pipenv_filter._get_root (relpath_of (top :: rest)) = Ok (relpath_of [top]).
Proof.
  unfold pipenv_filter._get_root, index_minus_2, relpath_of.
  cbn [is_absolute]. rewrite parents_length. cbn [parts].
  destruct rest as [|second rest]; [reflexivity|].
  unfold parents. cbn [parts is_absolute List.length Nat.eqb Nat.leb].
  rewrite nth_error_map.
  change (seq 0 (S (S (List.length rest))))
    with ([0; 1] ++ seq 2 (List.length rest))%nat.
  rewrite rev_app_distr.
  rewrite nth_error_app2 by (rewrite length_rev, length_seq; lia).
  rewrite length_rev, length_seq.
  replace (S (S (List.length rest)) - 2 - List.length rest)%nat with 0%nat by lia.
  reflexivity.
Qed.

Lemma excluded_top_spec (top : string) :
  excluded_top top = true <-> runtime_supplied top.
Proof.
  unfold excluded_top, runtime_supplied.
  rewrite !orb_true_iff, endswith_spec, !bool_decide_eq_true. tauto.
Qed.

(** The filter looks at the first component only. *)
Lemma filter_first (top : string) (rest : list string) :
  pipenv_filter._filter (relpath_of (top :: rest)) = Ok (negb (excluded_top top)).
Proof.
  unfold pipenv_filter._filter. rewrite get_root_first.
  cbn [result_bind]. change (name (relpath_of [top])) with top.
  unfold excluded_top.
  destruct (endswith top ".dist-info"); [reflexivity|].
  cbn [orb]. now destruct (bool_decide (top = "boto3") || bool_decide (top = "botocore")).
Qed.

Lemma filter_excludes_iff (top : string) (rest : list string) :
  pipenv_filter._filter (relpath_of (top :: rest)) = Ok false <-> runtime_supplied top.
Proof.
  rewrite filter_first, <- excluded_top_spec.
  destruct (excluded_top top); cbn; split; congruence.
Qed.

Lemma filter_includes_iff (top : string) (rest : list string) :
  pipenv_filter._filter (relpath_of (top :: rest)) = Ok true <-> ~ runtime_supplied top.
Proof.
  rewrite filter_first, <- excluded_top_spec.
  destruct (excluded_top top); cbn; split; try congruence; intros H; now elim H.
Qed.

(** C5. The default filter returns false for [foo.dist-info/METADATA] and
    [boto3/client.py] and true for [app/handler.py], so that of the example
    tree only [app/] and [app/handler.py] reach the archive; in general it
    returns false exactly for the paths whose top-level name ends in
    [.dist-info] or is [boto3] or [botocore], and true for every other
    path. *)
Theorem C5_default_filter :
  pipenv_filter._filter (relpath_of ["foo.dist-info"; "METADATA"]) = Ok false
  /\ pipenv_filter._filter (relpath_of ["boto3"; "client.py"]) = Ok false
  /\ pipenv_filter._filter (relpath_of ["app"; "handler.py"]) = Ok true
  /\ map filename
         (snd (PipenvPackage.zip_body [example_tree] [] (Some pipenv_filter._filter)))
     = ["app/"; "app/handler.py"]
  /\ (forall top rest,
        pipenv_filter._filter (relpath_of (top :: rest)) = Ok false
        <-> runtime_supplied top)
  /\ (forall top rest,
        pipenv_filter._filter (relpath_of (top :: rest)) = Ok true
        <-> ~ runtime_supplied top).
Proof.
  split; [reflexivity|]. split; [reflexivity|]. split; [reflexivity|].
  split; [vm_compute; reflexivity|].
  split; intros top rest.
  - apply filter_excludes_iff.
  - apply filter_includes_iff.
Qed.

(** C10. The test is on the first component of the relative path, which
    for a path of depth one is the entry itself: a top-level file whose own
    name ends in [.dist-info] or is [boto3] or [botocore] is left out of
    the archive, and a deeper path is judged as its top-level name is. *)
Theorem C10_filter_first_component :
  (forall entry,
     pipenv_filter._filter (relpath_of [entry]) = Ok false <-> runtime_supplied entry)
  /\ (forall fname mtime data zf,
        runtime_supplied fname ->
        PipenvPackage.write_children (Some pipenv_filter._filter)
          (rglob [File fname mtime data]) zf = (Ok tt, zf))
  /\ (forall top rest,
        pipenv_filter._filter (relpath_of (top :: rest))
        = pipenv_filter._filter (relpath_of [top])).
Proof.
  split; [intros entry; apply filter_excludes_iff|].
  split.
  - intros fname mtime data zf Hex.
    unfold rglob. cbn [map flat_map descend app child_of].
    cbn [PipenvPackage.write_children arcname].
    apply (filter_excludes_iff fname []) in Hex. now rewrite Hex.
  - intros top rest. now rewrite !filter_first.
Qed.

(* ===================================================================== *)
(** * The process runner                                                  *)
(* ===================================================================== *)

Section ProcessRunner.

Variable os_exec : world -> command -> result completed.

(** A checked call whose child exits with a status other than zero raises
    [SubprocessError], after the child has run. *)
Lemma call_subprocess_nonzero cmd opts w proc :
  os_exec w (command_of cmd opts) = Ok proc ->
  returncode proc <> 0%Z ->
  PipenvPackage._call_subprocess os_exec cmd true opts w
  = (Raise SubprocessError, set_spawned (spawned w ++ [command_of cmd opts]) w).
Proof.
  intros Hexec Hrc. unfold PipenvPackage._call_subprocess.
  fold (command_of cmd opts). rewrite Hexec.
  destruct (Z.eqb_spec (returncode proc) 0); [contradiction|reflexivity].
Qed.

(** A call whose child exits with status zero, or that is not checked,
    returns the output of the streams that were piped. *)
Lemma call_subprocess_returns cmd check opts w proc :
  os_exec w (command_of cmd opts) = Ok proc ->
  check = false \/ returncode proc = 0%Z ->
  PipenvPackage._call_subprocess os_exec cmd check opts w
  = (Ok (if PipenvPackage.opt_stdout opts then Some (out proc) else None,
         if PipenvPackage.opt_stderr opts then Some (err proc) else None),
     set_spawned (spawned w ++ [command_of cmd opts]) w).
Proof.
  intros Hexec Hok. unfold PipenvPackage._call_subprocess.
  fold (command_of cmd opts). rewrite Hexec.
  destruct Hok as [-> | ->]; [reflexivity|].
  now rewrite andb_false_r.
Qed.

End ProcessRunner.

(** C3, as the claim states it, fails: the error of a checked call that
    exits with status 1 is the error of one that exits with status 2 and
    wrote other bytes. The call raises the bare [SubprocessError]: nothing
    the caller gets depends on the exit status or on the captured
    streams. *)
Lemma C3_error_carries_nothing :
  returncode exit_1 <> returncode exit_2
  /\ (out exit_1, err exit_1) <> (out exit_2, err exit_2)
  /\ fst (PipenvPackage._call_subprocess (fun _ _ => Ok exit_1)
            ["pip"; "install"] true piped empty_world)
     = Raise SubprocessError
  /\ fst (PipenvPackage._call_subprocess (fun _ _ => Ok exit_2)
            ["pip"; "install"] true piped empty_world)
     = Raise SubprocessError
  /\ ~ (exists status_of : result (option (list byte) * option (list byte)) -> Z,
         forall proc : completed,
           returncode proc <> 0%Z ->
           status_of (fst (PipenvPackage._call_subprocess (fun _ _ => Ok proc)
                             ["pip"; "install"] true piped empty_world))
           = returncode proc).
Proof.
  split; [discriminate|]. split; [discriminate|].
  split; [reflexivity|]. split; [reflexivity|].
  intros [status_of H].
  pose proof (H exit_1 ltac:(discriminate)) as H1.
  pose proof (H exit_2 ltac:(discriminate)) as H2.
  cbn in H1, H2. rewrite H1 in H2. discriminate H2.
Qed.

(** C3, amended. A checked call whose child exits with a status other
    than zero fails with [SubprocessError] once the child has run; the
    error, and all the call hands to its caller, is the same whatever the
    exit status and whatever the child wrote to its streams. The captured
    bytes are returned only when the call does not fail: when the status
    is zero or the call is not checked. *)
Theorem C3_checked_call_fails_bare
  (os_exec os_exec' : world -> command -> result completed)
  (cmd : list string) (opts : PipenvPackage.popen_opts) (w : world)
  (proc proc' : completed) :
  let c := mkCommand cmd (PipenvPackage.opt_env opts) (PipenvPackage.opt_cwd opts)
                     (PipenvPackage.opt_stdout opts) (PipenvPackage.opt_stderr opts) in
  os_exec w c = Ok proc ->
  os_exec' w c = Ok proc' ->
  returncode proc <> 0%Z ->
  returncode proc' <> 0%Z ->
  PipenvPackage._call_subprocess os_exec cmd true opts w
  = (Raise SubprocessError, set_spawned (spawned w ++ [c]) w)
  /\ PipenvPackage._call_subprocess os_exec' cmd true opts w
     = PipenvPackage._call_subprocess os_exec cmd true opts w
  /\ PipenvPackage._call_subprocess os_exec cmd false opts w
     = (Ok (if PipenvPackage.opt_stdout opts then Some (out proc) else None,
            if PipenvPackage.opt_stderr opts then Some (err proc) else None),
        set_spawned (spawned w ++ [c]) w).
Proof.
  intros c Hexec Hexec' Hrc Hrc'.
  rewrite (call_subprocess_nonzero os_exec cmd opts w proc Hexec Hrc).
  rewrite (call_subprocess_nonzero os_exec' cmd opts w proc' Hexec' Hrc').
  split; [reflexivity|]. split; [reflexivity|].
  apply call_subprocess_returns; [exact Hexec | now left].
Qed.

Lemma C3_checked_call_fails_bare_witness :
  PipenvPackage._call_subprocess (fun _ _ => Ok exit_1) ["pip"; "install"] true piped
    empty_world
  = (Raise SubprocessError,
     set_spawned [mkCommand ["pip"; "install"] None None true true] empty_world)
  /\ PipenvPackage._call_subprocess (fun _ _ => Ok exit_2) ["pip"; "install"] true piped
       empty_world
     = PipenvPackage._call_subprocess (fun _ _ => Ok exit_1) ["pip"; "install"] true piped
         empty_world
  /\ PipenvPackage._call_subprocess (fun _ _ => Ok exit_1) ["pip"; "install"] false piped
       empty_world
     = (Ok (Some (out exit_1), Some (err exit_1)),
        set_spawned [mkCommand ["pip"; "install"] None None true true] empty_world).
Proof.
  apply (C3_checked_call_fails_bare (fun _ _ => Ok exit_1) (fun _ _ => Ok exit_2)
           ["pip"; "install"] piped empty_world exit_1 exit_2);
    first [reflexivity | discriminate].
Defined.

(* ===================================================================== *)
(** * The dependency cache: [get_builddir] and [warmup]                   *)
(* ===================================================================== *)

Lemma is_file_files (p : string) (w w' : world) :
  files w' = files w -> is_file p w' = is_file p w.
Proof. unfold is_file. now intros ->. Qed.

Lemma lock_ready_files self lock w w' :
  files w' = files w -> lock_ready self lock w -> lock_ready self lock w'.
Proof.
  unfold lock_ready. intros Hf (Hl & H1 & H2 & H3).
  rewrite !(is_file_files _ w w' Hf), Hf. auto.
Qed.

Lemma ensure_buildroot_files w : files (ensure_buildroot w) = files w.
Proof. unfold ensure_buildroot. now destruct (is_dir _ w). Qed.

Lemma ensure_buildroot_spawned w : spawned (ensure_buildroot w) = spawned w.
Proof. unfold ensure_buildroot. now destruct (is_dir _ w). Qed.

Lemma ensure_buildroot_zipfiles w : zipfiles (ensure_buildroot w) = zipfiles w.
Proof. unfold ensure_buildroot. now destruct (is_dir _ w). Qed.

Lemma ensure_buildroot_is_dir w :
  is_dir PipenvPackage.buildroot (ensure_buildroot w) = true.
Proof.
  unfold ensure_buildroot.
  destruct (is_dir PipenvPackage.buildroot w) eqn:E; [exact E|].
  unfold is_dir. cbn [dirs set_dirs]. apply bool_decide_eq_true. set_solver.
Qed.

Lemma ensure_buildroot_id w :
  is_dir PipenvPackage.buildroot w = true -> ensure_buildroot w = w.
Proof. unfold ensure_buildroot. now intros ->. Qed.


(** [get_builddir] returns the directory named by the digest of the lock
    file, and leaves the build root behind. *)
Lemma get_builddir_ok self lock w :
  lock_ready self lock w ->
  PipenvPackage.get_builddir self w = (Ok (builddir_of lock), ensure_buildroot w).
Proof.
  intros (Hl & H1 & H2 & H3).
  unfold PipenvPackage.get_builddir, bind, mkdir_parents_exist_ok, ensure_buildroot.
  destruct (is_dir PipenvPackage.buildroot w) eqn:Ed.
  - unfold read_bytes. rewrite Hl. reflexivity.
  - rewrite H1. cbn [existsb]. rewrite H2, H3. cbn [orb].
    unfold read_bytes. cbn [files set_dirs]. rewrite Hl. reflexivity.
Qed.

Section Warmup.

Variable os_exec : world -> command -> result completed.
Variable ntf_name : string.


Lemma warmup_miss self lock w :
  lock_ready self lock w ->
  exists_ (builddir_of lock) (ensure_buildroot w) = false ->
  PipenvPackage.warmup os_exec ntf_name self w = warmup_cold os_exec ntf_name self lock w.
Proof.
  intros Hready Hex. unfold PipenvPackage.warmup, bind at 1.
  rewrite (get_builddir_ok self lock w Hready), Hex. cbn [negb].
  unfold bind at 1. unfold mkdir. rewrite Hex, ensure_buildroot_is_dir.
  set (w0 := ensure_buildroot w).
  set (w1 := set_dirs ({[builddir_of lock]} ∪ dirs w0) w0).
  assert (Hready1 : lock_ready self lock w1).
  { apply (lock_ready_files self lock w); [|exact Hready].
    subst w1 w0. cbn [files set_dirs]. apply ensure_buildroot_files. }
  assert (Hroot1 : is_dir PipenvPackage.buildroot w1 = true).
  { pose proof (ensure_buildroot_is_dir w) as Hd. fold w0 in Hd.
    unfold is_dir in *. apply bool_decide_eq_true in Hd.
    apply bool_decide_eq_true. subst w1. cbn [dirs set_dirs]. set_solver. }
  unfold bind at 1. unfold PipenvPackage._call_pipenv, bind at 1.
  rewrite (get_builddir_ok self lock w1 Hready1), (ensure_buildroot_id w1 Hroot1).
  unfold warmup_cold. fold w0. fold w1.
  unfold PipenvPackage._call_subprocess at 1.
  cbn [PipenvPackage.opt_env PipenvPackage.opt_cwd PipenvPackage.opt_stdout
       PipenvPackage.opt_stderr].
  fold (resolver_cmd self lock w1).
  destruct (os_exec w1 (resolver_cmd self lock w1)) as [p|e]; [|reflexivity].
  destruct (returncode p =? 0)%Z; cbn [andb negb]; [|reflexivity].
  unfold bind, PipenvPackage.with_tempfile, PipenvPackage._call_subprocess.
  cbn [PipenvPackage.opt_env PipenvPackage.opt_cwd PipenvPackage.opt_stdout
       PipenvPackage.opt_stderr PipenvPackage.no_opts].
  fold (installer_cmd ntf_name lock).
  destruct (os_exec _ (installer_cmd ntf_name lock)) as [q|e]; [|reflexivity].
  destruct (returncode q =? 0)%Z; reflexivity.
Qed.

End Warmup.

Lemma builddir_not_root lock :
  builddir_of lock <> PipenvPackage.buildroot
  /\ builddir_of lock <> "/" /\ builddir_of lock <> "/tmp".
Proof.
  unfold builddir_of, pathjoin, PipenvPackage.buildroot.
  generalize (hashlib.sha3_256_hexdigest lock) as h. intros h.
  repeat split; intros H; cbv in H; congruence.
Qed.

Lemma exists_ensure_buildroot lock w :
  exists_ (builddir_of lock) (ensure_buildroot w) = exists_ (builddir_of lock) w.
Proof.
  unfold exists_. rewrite (is_file_files _ w _ (ensure_buildroot_files w)).
  f_equal. unfold ensure_buildroot.
  destruct (is_dir PipenvPackage.buildroot w); [reflexivity|].
  unfold is_dir. cbn [dirs set_dirs].
  destruct (builddir_not_root lock) as (Hroot & Hslash & Htmp).
  apply bool_decide_ext.
  rewrite !elem_of_union, elem_of_singleton, elem_of_list_to_set.
  rewrite !elem_of_cons, elem_of_nil. tauto.
Qed.


Section WarmupFrame.

Variable os_exec : world -> command -> result completed.
Variable ntf_name : string.



End WarmupFrame.


Lemma demo_lock_ready : lock_ready demo_package demo_lock demo_world.
Proof. repeat split; vm_compute; reflexivity. Qed.


(* ===================================================================== *)
(** * The build orchestrator                                              *)
(* ===================================================================== *)

Section OrchestratorFacts.

Variable os_exec : world -> command -> result completed.
Variable ntf_name : string.
Variable ast_parse : string -> bool.
Variable resolve : string -> string.

(** With a [Pipfile], the build is the warmup of the pipenv package and
    then its build. *)
Lemma build_zip_package_pipenv sourcedir resgen w :
  is_file (pathjoin sourcedir "Pipfile") w = true ->
  build_zip_package os_exec ntf_name ast_parse resolve sourcedir resgen w
  = (PipenvPackage.warmup os_exec ntf_name (PipenvPackage_init resolve sourcedir resgen) ;;
     let* bundle := PipenvPackage.build ast_parse
                      (PipenvPackage_init resolve sourcedir resgen) in
     ret (mkFileAsset bundle)) w.
Proof. intros H. unfold build_zip_package. now rewrite H. Qed.

(** An exception of the warmup is the exception of the build, which stops
    in the world the warmup left. *)
Lemma warmup_failure_propagates sourcedir resgen w e :
  is_file (pathjoin sourcedir "Pipfile") w = true ->
  fst (PipenvPackage.warmup os_exec ntf_name
         (PipenvPackage_init resolve sourcedir resgen) w) = Raise e ->
  build_zip_package os_exec ntf_name ast_parse resolve sourcedir resgen w
  = (Raise e,
     snd (PipenvPackage.warmup os_exec ntf_name
            (PipenvPackage_init resolve sourcedir resgen) w)).
Proof.
  intros Hpip Hraise. rewrite (build_zip_package_pipenv _ _ _ Hpip).
  unfold bind at 1.
  destruct (PipenvPackage.warmup _ _ _ w) as [[[]|e'] w']; cbn in *; congruence.
Qed.

End OrchestratorFacts.

(** C7. When the build directory is not there yet, the resolver exits
    with status zero and the installer exits with a status other than
    zero, the warmup fails with [SubprocessError] after the installer has
    run; [build_zip_package] fails with the same error in the world the
    warmup left, in which no archive has been written: the bundler is not
    reached. *)
Theorem C7_installer_failure_propagates
  (os_exec : world -> command -> result completed) (ntf_name : string)
  (ast_parse : string -> bool) (resolve : string -> string)
  (sourcedir : string) (resgen : resourcegen.ResourceGenerator)
  (lock : list byte) (w : world) (status : Z) :
  let package := PipenvPackage_init resolve sourcedir resgen in
  let w' := snd (PipenvPackage.warmup os_exec ntf_name package w) in
  is_file (pathjoin sourcedir "Pipfile") w = true ->
  lock_ready package lock w ->
  exists_ (builddir_of lock) w = false ->
  (forall w0 c, argv c = ["pipenv"; "lock"; "--requirements"] ->
                exists p, os_exec w0 c = Ok p /\ returncode p = 0%Z) ->
  (forall w0 c, argv c = ["pip"; "install"; "--target"; builddir_of lock; "-r"; ntf_name] ->
                exists q, os_exec w0 c = Ok q /\ returncode q = status) ->
  status <> 0%Z ->
  fst (PipenvPackage.warmup os_exec ntf_name package w) = Raise SubprocessError
  /\ build_zip_package os_exec ntf_name ast_parse resolve sourcedir resgen w
     = (Raise SubprocessError, w')
  /\ zipfiles w' = zipfiles w
  /\ exists env, spawned w'
       = spawned w
         ++ [mkCommand ["pipenv"; "lock"; "--requirements"] (Some env)
                       (Some (resolve sourcedir)) true false;
             mkCommand ["pip"; "install"; "--target"; builddir_of lock; "-r"; ntf_name]
                       None None false false].
Proof.
  intros package w' Hpip Hready Hcold Hres Hinst Hstatus.
  assert (Hmiss : exists_ (builddir_of lock) (ensure_buildroot w) = false)
    by now rewrite exists_ensure_buildroot.
  pose proof (warmup_miss os_exec ntf_name package lock w Hready Hmiss) as Hw.
  unfold warmup_cold in Hw.
  set (w0 := ensure_buildroot w) in Hw.
  set (w1 := set_dirs ({[builddir_of lock]} ∪ dirs w0) w0) in Hw.
  destruct (Hres w1 (resolver_cmd package lock w1) eq_refl) as (p & Hp & Hp0).
  rewrite Hp, Hp0 in Hw. cbn [Z.eqb negb] in Hw.
  match type of Hw with
  | context [os_exec ?w3 (installer_cmd ntf_name lock)] =>
      destruct (Hinst w3 (installer_cmd ntf_name lock) eq_refl) as (q & Hq & Hq0);
      rewrite Hq in Hw
  end.
  rewrite Hq0 in Hw.
  destruct (Z.eqb_spec status 0) as [|_]; [contradiction|]. cbn [negb] in Hw.
  assert (Hfst : fst (PipenvPackage.warmup os_exec ntf_name package w)
                 = Raise SubprocessError) by now rewrite Hw.
  split; [exact Hfst|].
  split; [exact (warmup_failure_propagates os_exec ntf_name ast_parse resolve
                   sourcedir resgen w SubprocessError Hpip Hfst)|].
  subst w'. rewrite Hw. cbn [snd zipfiles set_files set_spawned spawned].
  split; [apply ensure_buildroot_zipfiles|].
  eexists. subst w1 w0. cbn [spawned set_dirs].
  rewrite ensure_buildroot_spawned, <- app_assoc. reflexivity.
Qed.

Lemma C7_installer_failure_propagates_witness :
  build_zip_package installer_fails "/tmp/tmp8k2_x1" (fun _ => true) (fun p => p)
    "/srv/app" (resourcegen.mkResourceGenerator []) demo_world
  = (Raise SubprocessError,
     snd (PipenvPackage.warmup installer_fails "/tmp/tmp8k2_x1" demo_package demo_world))
  /\ zipfiles (snd (PipenvPackage.warmup installer_fails "/tmp/tmp8k2_x1" demo_package
                      demo_world)) = ∅.
Proof.
  refine (let H := C7_installer_failure_propagates installer_fails "/tmp/tmp8k2_x1"
                     (fun _ => true) (fun p => p) "/srv/app"
                     (resourcegen.mkResourceGenerator []) demo_lock demo_world 1
                     _ demo_lock_ready _ _ _ _ in
          conj (proj1 (proj2 H)) (proj1 (proj2 (proj2 H)))).
  - vm_compute; reflexivity.
  - vm_compute; reflexivity.
  - intros w0 c Hc. unfold installer_fails. rewrite Hc. eauto.
  - intros w0 c Hc. unfold installer_fails. rewrite Hc. eauto.
  - discriminate.
Defined.


(** The source directory [/srv/lib] has no [Pipfile] in [demo_world]:
    the build stops before anything is started. *)
Example no_pipfile_example :
  build_zip_package all_succeed "/tmp/tmp8k2_x1" (fun _ => true) (fun p => p)
    "/srv/lib" (resourcegen.mkResourceGenerator []) demo_world
  = (Raise (OSError "Unable to detect package type"), demo_world).
Proof. vm_compute. reflexivity. Qed.

(* ===================================================================== *)
(** * The accessor code generator                                         *)
(* ===================================================================== *)




Section Generator.

Variable ast_parse : string -> bool.




End Generator.




(** The module generated for the one bucket of the spec's example. *)
Example one_bucket_module :
  module_text one_bucket
  = resourcegen.HEADER
    +:+ nl +:+ "    'bucket': ((lambda bucket: boto3.resource('s3').Bucket(bucket)), "
    +:+ "('my-bucket',))," +:+ nl
    +:+ resourcegen.FOOTER.
Proof. vm_compute. reflexivity. Qed.

(** [repr] picks the quotes by what the string holds, and escapes. *)
Example repr_str_quotes :
  repr_str "bucket" = "'bucket'"
  /\ repr_str "it's" = dquote +:+ "it's" +:+ dquote
  /\ repr_str ("it's " +:+ dquote +:+ "x" +:+ dquote)
     = "'it" +:+ backslash +:+ "'s " +:+ dquote +:+ "x" +:+ dquote +:+ "'"
  /\ repr_str ("a" +:+ nl +:+ backslash) = "'a" +:+ backslash +:+ "n"
                                            +:+ backslash +:+ backslash +:+ "'"
  /\ repr_tuple [] = "()"
  /\ repr_tuple [VStr "a"; VNone] = "('a', None)".
Proof. repeat split; vm_compute; reflexivity. Qed.


(* ===================================================================== *)
(** * The accessor module at run time                                     *)
(* ===================================================================== *)

Lemma cache_get_None (key : string) (cache : list (string * accessor.client)) :
  accessor.cache_get key cache = None <-> ~ In key (map fst cache).
Proof.
  induction cache as [|[k v] cache IH]; cbn; [tauto|].
  destruct (String.eqb_spec k key) as [-> | Hne].
  - split; [discriminate | intros H; elim H; now left].
  - rewrite IH. tauto.
Qed.

Lemma cache_get_In (key : string) (cache : list (string * accessor.client)) v :
  accessor.cache_get key cache = Some v -> In (key, v) cache.
Proof.
  induction cache as [|[k v'] cache IH]; cbn; [discriminate|].
  destruct (String.eqb_spec k key) as [-> | Hne].
  - intros [= ->]. now left.
  - intros H. right. now apply IH.
Qed.


Lemma cache_remove_In (n : string) (cache : list (string * accessor.client)) kv :
  In kv (accessor.cache_remove n cache) -> In kv cache.
Proof.
  induction cache as [|[k v] cache IH]; cbn; [tauto|].
  destruct (String.eqb k n); cbn; [tauto|]. intros [H | H]; [now left | right; auto].
Qed.

Lemma cache_remove_NoDup (n : string) (cache : list (string * accessor.client)) :
  List.NoDup (map fst cache) ->
  List.NoDup (map fst (accessor.cache_remove n cache))
  /\ ~ In n (map fst (accessor.cache_remove n cache)).
Proof.
  induction cache as [|[k v] cache IH]; cbn; intros Hnd; [split; [constructor | tauto]|].
  apply NoDup_cons_iff in Hnd as [Hk Hnd].
  destruct (String.eqb_spec k n) as [-> | Hkn].
  - split; [exact Hnd | exact Hk].
  - destruct (IH Hnd) as [IH1 IH2]. cbn. split.
    + constructor; [|exact IH1]. intros Hin. apply Hk.
      apply in_map_iff in Hin as ([k' v'] & <- & Hin).
      apply in_map_iff. exists (k', v'). split; [reflexivity|].
      now apply (cache_remove_In n).
    + intros [H | H]; [contradiction | now apply IH2].
Qed.

Lemma removelast_In {A} (l : list A) (x : A) : In x (removelast l) -> In x l.
Proof.
  induction l as [|a [|b l] IH]; cbn; [tauto | tauto |].
  intros [H | H]; [now left | right; now apply IH].
Qed.

Lemma removelast_keys_NoDup (cache : list (string * accessor.client)) :
  List.NoDup (map fst cache) -> List.NoDup (map fst (removelast cache)).
Proof.
  destruct cache as [|kv cache]; [intros _; constructor|].
  intros Hnd.
  rewrite (app_removelast_last kv (l := kv :: cache)) in Hnd by discriminate.
  rewrite map_app in Hnd. exact (NoDup_app_remove_r _ _ Hnd).
Qed.

Section AccessorFacts.

Variable _resources : gmap string (accessor.ctor * list pyvalue).

Lemma fresh_sound : sound _resources accessor.fresh.
Proof. split; [constructor | intros k v []]. Qed.

Lemma getattr_sound (n : string) (st : accessor.runtime) :
  sound _resources st -> sound _resources (snd (accessor.__getattr__ _resources n st)).
Proof.
  intros [Hnd Hin]. unfold accessor.__getattr__.
  destruct (accessor.cache_get n (accessor.lru st)) as [v|] eqn:Hget.
  - cbn [snd accessor.lru]. destruct (cache_remove_NoDup n _ Hnd) as [Hnd' Hn]. split.
    + change (List.NoDup (n :: map fst (accessor.cache_remove n (accessor.lru st)))).
      now constructor.
    + intros k v' [[= <- <-] | H]; [apply Hin; now apply cache_get_In|].
      apply Hin. now apply (cache_remove_In n).
  - unfold accessor.__getattr___wrapped.
    destruct (_resources !! n) as [[c args]|] eqn:Hr; [|now split].
    unfold accessor.call.
    destruct (List.length (accessor.ctor_args c) =? List.length args)%nat; [|now split].
    cbn [snd accessor.lru accessor.next_oid].
    apply cache_get_None in Hget.
    set (kept := if (accessor.maxsize <=? List.length (accessor.lru st))%nat
                 then removelast (accessor.lru st) else accessor.lru st).
    assert (Hsub : forall kv, In kv kept -> In kv (accessor.lru st)).
    { subst kept. destruct (accessor.maxsize <=? _)%nat; [apply removelast_In | auto]. }
    assert (Hkept : List.NoDup (map fst kept)).
    { subst kept. destruct (accessor.maxsize <=? _)%nat;
        [now apply removelast_keys_NoDup | exact Hnd]. }
    split.
    + change (List.NoDup (n :: map fst kept)). constructor; [|exact Hkept].
      intros H. apply Hget. apply in_map_iff in H as (kv & <- & H).
      apply in_map. now apply Hsub.
    + intros k v [[= <- <-] | H].
      * exists c, args. split; [exact Hr | now split].
      * apply Hin. now apply Hsub.
Qed.

Lemma lookups_sound (names : list string) (st : accessor.runtime) :
  sound _resources st -> sound _resources (accessor.lookups _resources names st).
Proof.
  revert st. induction names as [|n names IH]; intros st H; [exact H|].
  cbn. apply IH. now apply getattr_sound.
Qed.



(** With no more names than the cache holds, a miss finds room. *)
Lemma miss_has_room (n : string) (st : accessor.runtime) :
  size _resources <= accessor.maxsize ->
  sound _resources st ->
  accessor.cache_get n (accessor.lru st) = None ->
  is_Some (_resources !! n) ->
  List.length (accessor.lru st) < accessor.maxsize.
Proof.
  intros Hsize [Hnd Hin] Hget Hsome. apply cache_get_None in Hget.
  assert (Hle : List.length (n :: map fst (accessor.lru st))
                <= List.length (elements (dom _resources))).
  { apply NoDup_incl_length; [now constructor|].
    intros k Hk. apply list_elem_of_In, elem_of_elements, elem_of_dom.
    destruct Hk as [<- | Hk]; [exact Hsome|].
    apply in_map_iff in Hk as ([k' v] & <- & Hk).
    destruct (Hin k' v Hk) as (c & args & Hsome' & _). cbn [fst]. eauto. }
  cbn [List.length] in Hle. rewrite length_map in Hle.
  assert (Hdom : List.length (elements (dom _resources)) = size _resources)
    by apply size_dom.
  lia.
Qed.



Lemma getattr_hit (name : string) (st : accessor.runtime) obj :
  accessor.cache_get name (accessor.lru st) = Some obj ->
  fst (accessor.__getattr__ _resources name st) = Ok obj.
Proof. intros H. unfold accessor.__getattr__. now rewrite H. Qed.

End AccessorFacts.





(** X15. An immediately repeated lookup returns the cached object, whatever
    the number of names. *)
Lemma getattr_twice (d : gmap string (accessor.ctor * list pyvalue))
  (name : string) (st : accessor.runtime) obj :
  fst (accessor.__getattr__ d name st) = Ok obj ->
  fst (accessor.__getattr__ d name (snd (accessor.__getattr__ d name st))) = Ok obj.
Proof.
  intros H. apply getattr_hit. revert H. unfold accessor.__getattr__.
  destruct (accessor.cache_get name (accessor.lru st)) as [v|].
  - cbn. intros [= ->]. now rewrite String.eqb_refl.
  - destruct (accessor.__getattr___wrapped d name st) as [[v|e] st']; cbn;
      [|discriminate].
    intros [= ->]. now rewrite String.eqb_refl.
Qed.




(* ===================================================================== *)
(** * The bundler                                                         *)
(* ===================================================================== *)

(** Induction on trees, the hypothesis given for every child. *)
Lemma node_induction (P : node -> Prop) :
  (forall f t d, P (File f t d)) ->
  (forall d t entries, Forall P entries -> P (Dir d t entries)) ->
  forall n, P n.
Proof.
  intros HFile HDir. fix IH 1. intros [f t d | d t entries]; [apply HFile|].
  apply HDir. induction entries as [|x rest IHrest]; constructor;
    [apply IH | exact IHrest].
Qed.

















Lemma build_zip_archive dest sources virtuals filter w :
  PipenvPackage._build_zip dest sources virtuals filter w
  = (fst (PipenvPackage.zip_body (map (tree w) sources) virtuals filter),
     set_zipfiles
       (<[dest := snd (PipenvPackage.zip_body (map (tree w) sources) virtuals filter)]>
          (zipfiles w)) w).
Proof.
  unfold PipenvPackage._build_zip. fold (tree w).
  now destruct (PipenvPackage.zip_body (map (tree w) sources) virtuals filter).
Qed.




(* ===================================================================== *)
(** * The cache key                                                       *)
(* ===================================================================== *)

Section Counting.

Context {A : Type}.
Variable alphabet : list A.






End Counting.





(** The digest is 32 bytes. *)
Lemma sha3_256_N_length (msg : list N) : List.length (hashlib.sha3_256_N msg) = 32.
Proof. unfold hashlib.sha3_256_N. now rewrite length_map, length_seq. Qed.

Lemma sha3_256_N_bytes (msg : list N) (x : N) :
  In x (hashlib.sha3_256_N msg) -> (x < 256)%N.
Proof.
  unfold hashlib.sha3_256_N. intros H. apply in_map_iff in H as (i & <- & _).
  unfold hashlib.state_byte. apply N.mod_lt. discriminate.
Qed.


Lemma string_of_list_ascii_length (l : list ascii) :
  String.length (string_of_list_ascii l) = List.length l.
Proof. induction l as [|c l IH]; cbn; [reflexivity | now rewrite IH]. Qed.

Lemma hex_length (bs : list N) : String.length (hashlib.hex bs) = (2 * List.length bs)%nat.
Proof.
  unfold hashlib.hex. rewrite string_of_list_ascii_length.
  induction bs as [|b bs IH]; [reflexivity|].
  cbn [flat_map List.length app]. rewrite IH. lia.
Qed.

Lemma append_inj_l (s t u : string) : s +:+ t = s +:+ u -> t = u.
Proof.
  induction s as [|c s IH]; [trivial|].
  change (String c (s +:+ t) = String c (s +:+ u) -> t = u).
  intros [= H]. now apply IH.
Qed.

(** The digests of the empty input and of [abc], as FIPS 202 gives them. *)
Example sha3_256_empty :
  hashlib.sha3_256_hexdigest []
  = "a7ffc6f8bf1ed76651c14756a061d662f580ff4de43b49fa82d80a4b80f8434a".
Proof. vm_compute. reflexivity. Qed.

Example sha3_256_abc :
  hashlib.sha3_256_hexdigest (list_byte_of_string "abc")
  = "3a985da74fe225b2045c172d6bd390bd855f086e3e9d525b46bfe24511431532".
Proof. vm_compute. reflexivity. Qed.

(** A message longer than one block of 136 bytes. *)
Example sha3_256_two_blocks :
  hashlib.sha3_256_hexdigest (repeat "a"%byte 300)
  = "8a5720b2ca0cae7b89ad399c5daab22c29f5c72bcf30ab81e807d9bda95b4580".
Proof. vm_compute. reflexivity. Qed.



(** Two lock files with different keys, and their build directories. *)
Example cache_key_fixture :
  hashlib.sha3_256_hexdigest [] <> hashlib.sha3_256_hexdigest (list_byte_of_string "abc")
  /\ builddir_of []
     = "/tmp/deplumi/a7ffc6f8bf1ed76651c14756a061d662f580ff4de43b49fa82d80a4b80f8434a".
Proof.
  split.
  - rewrite sha3_256_empty, sha3_256_abc. intros H. inversion H.
  - unfold builddir_of. rewrite sha3_256_empty. reflexivity.
Qed.

(* ===================================================================== *)
(** * Further properties: the walk of a source tree                       *)
(* ===================================================================== *)

Lemma child_of_parts prefix n : child_parts (child_of prefix n) = prefix ++ [node_name n].
Proof. destruct n; reflexivity. Qed.

Lemma child_of_relative prefix n : arcname (child_of prefix n) = relpath_of (prefix ++ [node_name n]).
Proof. destruct n; reflexivity. Qed.

(** The walk below a directory, by the entries of the directory. *)
Lemma descend_dir prefix d t entries :
  descend prefix (Dir d t entries)
  = map (child_of (prefix ++ [d])) entries ++ flat_map (descend (prefix ++ [d])) entries.
Proof. reflexivity. Qed.

(** A child found below [n] has a path that goes through [n], and is
    relative. *)
Lemma descend_through n : forall prefix c,
  In c (descend prefix n) ->
  exists q, q <> [] /\ arcname c = relpath_of (prefix ++ node_name n :: q).
Proof.
  induction n as [f t d | d t entries IH] using node_induction; intros prefix c Hc;
    [destruct Hc|].
  rewrite descend_dir in Hc. apply in_app_or in Hc as [Hc | Hc].
  - apply in_map_iff in Hc as (x & <- & Hx). exists [node_name x].
    split; [discriminate|]. rewrite child_of_relative, <- app_assoc. reflexivity.
  - apply in_flat_map in Hc as (x & Hx & Hc).
    rewrite List.Forall_forall in IH.
    destruct (IH x Hx _ _ Hc) as (q & Hq & ->).
    exists (node_name x :: q). split; [discriminate|].
    rewrite <- app_assoc. reflexivity.
Qed.

(** Every child of a walk has a relative path that starts with the name of
    an entry of the source. *)
Lemma rglob_relative entries c :
  In c (rglob entries) ->
  exists top rest,
    arcname c = relpath_of (top :: rest)
    /\ exists n, In n entries /\ top = node_name n.
Proof.
  unfold rglob. intros Hc. apply in_app_or in Hc as [Hc | Hc].
  - apply in_map_iff in Hc as (x & <- & Hx). exists (node_name x), [].
    split; [apply child_of_relative | eauto].
  - apply in_flat_map in Hc as (x & Hx & Hc).
    destruct (descend_through x [] c Hc) as (q & _ & ->).
    exists (node_name x), q. split; [reflexivity | eauto].
Qed.

Lemma NoDup_map_injective {A B : Type} (f : A -> B) (l : list A) :
  (forall x y, f x = f y -> x = y) -> List.NoDup l -> List.NoDup (map f l).
Proof.
  intros Hinj Hnd. induction Hnd as [|x l Hx _ IH]; cbn [map]; constructor; [|exact IH].
  intros Hin. apply in_map_iff in Hin as (y & Hxy & Hy). apply Hinj in Hxy. now subst.
Qed.

Lemma descend_length n : forall prefix,
  S (List.length (descend prefix n)) = node_count n.
Proof.
  induction n as [f t d | d t entries IH] using node_induction; intros prefix;
    [reflexivity|].
  rewrite descend_dir. cbn [node_count]. f_equal.
  rewrite length_app, length_map.
  induction IH as [|x rest Hx _ IHrest]; [reflexivity|].
  cbn [flat_map map List.length]. rewrite length_app, <- (Hx (prefix ++ [d])).
  unfold list_sum in *. cbn [fold_right]. lia.
Qed.

Lemma walk_NoDup prefix entries :
  List.NoDup (map node_name entries) ->
  (forall x, In x entries -> forall p, List.NoDup (map child_parts (descend p x))) ->
  List.NoDup (map child_parts
                (map (child_of prefix) entries ++ flat_map (descend prefix) entries)).
Proof.
  intros Hnames Hdeep. rewrite map_app. apply List.NoDup_app.
  - rewrite map_map.
    rewrite (map_ext _ (fun x => prefix ++ [node_name x])) by apply child_of_parts.
    rewrite <- (map_map node_name (fun nm => prefix ++ [nm])).
    apply NoDup_map_injective; [|exact Hnames].
    intros x y H. apply app_inv_head in H. now injection H.
  - induction entries as [|x rest IH]; [constructor|].
    cbn [flat_map]. rewrite map_app.
    cbn [map] in Hnames. apply NoDup_cons_iff in Hnames as [Hx Hrest].
    apply List.NoDup_app.
    + apply Hdeep. now left.
    + apply IH; [exact Hrest | intros y Hy; apply Hdeep; now right].
    + intros path H1 H2.
      apply in_map_iff in H1 as (c1 & <- & Hc1).
      apply in_map_iff in H2 as (c2 & Heq & Hc2).
      apply in_flat_map in Hc2 as (y & Hy & Hc2).
      destruct (descend_through x prefix c1 Hc1) as (q1 & _ & E1).
      destruct (descend_through y prefix c2 Hc2) as (q2 & _ & E2).
      unfold child_parts in Heq. rewrite E1, E2 in Heq. cbn [parts relpath_of] in Heq.
      apply app_inv_head in Heq. injection Heq as Hname _.
      apply Hx. rewrite <- Hname. now apply in_map.
  - intros path H1 H2.
    apply in_map_iff in H1 as (c1 & <- & Hc1).
    apply in_map_iff in Hc1 as (x & <- & Hx).
    apply in_map_iff in H2 as (c2 & Heq & Hc2).
    apply in_flat_map in Hc2 as (y & Hy & Hc2).
    destruct (descend_through y prefix c2 Hc2) as (q & Hq & E).
    unfold child_parts in Heq. rewrite E, child_of_relative in Heq.
    cbn [parts relpath_of] in Heq. apply app_inv_head in Heq.
    injection Heq as _ Hnil. now apply Hq.
Qed.

Lemma descend_NoDup n :
  well_named n -> forall prefix, List.NoDup (map child_parts (descend prefix n)).
Proof.
  induction n as [f t d | d t entries IH] using node_induction; intros Hwn prefix;
    [constructor|].
  inversion Hwn as [|d' t' entries' Hnames Hall]; subst.
  rewrite descend_dir. apply walk_NoDup; [exact Hnames|].
  rewrite List.Forall_forall in IH, Hall. intros x Hx. apply IH; auto.
Qed.

(** X1. A walk of a source tree in which no directory lists a name twice
    yields every file and directory below the source, each under one path
    of its own: as many children as the tree has nodes, no path twice, and
    every path relative with at least one component. *)
Theorem rglob_each_node_once (entries : list node) :
  List.NoDup (map node_name entries) ->
  Forall well_named entries ->
  List.length (rglob entries) = list_sum (map node_count entries)
  /\ List.NoDup (map child_parts (rglob entries))
  /\ forall c, In c (rglob entries) ->
       is_absolute (arcname c) = false /\ child_parts c <> [].
Proof.
  intros Hnames Hall. split; [|split].
  - unfold rglob. rewrite length_app, length_map. clear.
    induction entries as [|x rest IH]; [reflexivity|].
    cbn [flat_map map List.length]. rewrite length_app.
    rewrite <- (descend_length x []). unfold list_sum in *. cbn [fold_right]. lia.
  - unfold rglob. apply walk_NoDup; [exact Hnames|].
    rewrite List.Forall_forall in Hall. intros x Hx. apply descend_NoDup. auto.
  - intros c Hc. destruct (rglob_relative entries c Hc) as (top & rest & E & _).
    unfold child_parts. rewrite E. split; [reflexivity | discriminate].
Qed.

Lemma rglob_each_node_once_witness :
  List.length (rglob example_tree) = 6
  /\ List.NoDup (map child_parts (rglob example_tree)).
Proof.
  assert (Hnames : List.NoDup (map node_name example_tree))
    by (repeat constructor; cbn; intuition discriminate).
  assert (Hall : Forall well_named example_tree)
    by (repeat constructor; cbn; intuition discriminate).
  split; [exact (proj1 (rglob_each_node_once example_tree Hnames Hall))|].
  exact (proj1 (proj2 (rglob_each_node_once example_tree Hnames Hall))).
Defined.

(* ===================================================================== *)
(** * Further properties: the archive                                     *)
(* ===================================================================== *)













(* ===================================================================== *)
(** * Further properties: the build of a package                          *)
(* ===================================================================== *)

Section BuildFacts.

Variable ast_parse : string -> bool.

(** The run of [build], by what the accessor generator returns. *)
Lemma build_run self lock w :
  lock_ready self lock w ->
  PipenvPackage.build ast_parse self w
  = match resourcegen.build ast_parse (PipenvPackage.resgen self) with
    | Raise e => (Raise e, ensure_buildroot w)
    | Ok text =>
        let body := PipenvPackage.zip_body
                      [tree w (builddir_of lock); tree w (PipenvPackage.root self)]
                      [("__res__.py", text)] (Some pipenv_filter._filter) in
        (match fst body with
         | Ok _ => Ok (builddir_of lock +:+ ".zip")
         | Raise e => Raise e
         end,
         set_zipfiles (<[builddir_of lock +:+ ".zip" := snd body]> (zipfiles w))
                      (ensure_buildroot w))
    end.
Proof.
  intros Hready. unfold PipenvPackage.build, bind at 1.
  rewrite (get_builddir_ok self lock w Hready).
  unfold bind at 1, lift.
  destruct (resourcegen.build ast_parse (PipenvPackage.resgen self)) as [text|e];
    [|reflexivity].
  unfold bind. rewrite build_zip_archive. cbn [map fst snd].
  assert (Ht : forall s, tree (ensure_buildroot w) s = tree w s).
  { intros s. unfold tree, ensure_buildroot. now destruct (is_dir _ w). }
  rewrite !Ht, ensure_buildroot_zipfiles.
  now destruct (fst (PipenvPackage.zip_body _ _ _)) as [[]|e].
Qed.

(** X4. When the accessor generator raises, [build] raises the same
    exception before the archive is opened: no archive is written or
    replaced, and nothing but the build root is made. *)
Theorem build_generator_failure_writes_nothing self lock w e :
  lock_ready self lock w ->
  resourcegen.build ast_parse (PipenvPackage.resgen self) = Raise e ->
  PipenvPackage.build ast_parse self w = (Raise e, ensure_buildroot w)
  /\ zipfiles (snd (PipenvPackage.build ast_parse self w)) = zipfiles w
  /\ files (snd (PipenvPackage.build ast_parse self w)) = files w
  /\ spawned (snd (PipenvPackage.build ast_parse self w)) = spawned w.
Proof.
  intros Hready He. rewrite (build_run self lock w Hready), He. cbn [snd].
  auto using ensure_buildroot_zipfiles, ensure_buildroot_files,
    ensure_buildroot_spawned.
Qed.


End BuildFacts.


Lemma build_generator_failure_writes_nothing_witness :
  PipenvPackage.build (fun _ => true) queue_package demo_world
  = (Raise (KeyError "pulumi_aws.sqs.queue.Queue"), ensure_buildroot demo_world)
  /\ zipfiles (snd (PipenvPackage.build (fun _ => true) queue_package demo_world))
     = zipfiles demo_world.
Proof.
  refine (let H := build_generator_failure_writes_nothing (fun _ => true) queue_package
                     demo_lock demo_world (KeyError "pulumi_aws.sqs.queue.Queue") _ _ in
          conj (proj1 H) (proj1 (proj2 H))).
  - repeat split; vm_compute; reflexivity.
  - vm_compute; reflexivity.
Defined.


(* ===================================================================== *)
(** * Further properties: the warmup and the orchestrator                 *)
(* ===================================================================== *)

Lemma ensure_buildroot_environ w : environ (ensure_buildroot w) = environ w.
Proof. unfold ensure_buildroot. now destruct (is_dir _ w). Qed.



Section WarmupMore.

Variable os_exec : world -> command -> result completed.
Variable ntf_name : string.




End WarmupMore.



(** Without the lock file [get_builddir] raises, having made the build
    root. *)
Lemma get_builddir_no_lock self w :
  files w !! PipenvPackage.lockfile self = None ->
  is_file PipenvPackage.buildroot w = false ->
  is_file "/" w = false ->
  is_file "/tmp" w = false ->
  PipenvPackage.get_builddir self w
  = (Raise (FileNotFoundError (PipenvPackage.lockfile self)), ensure_buildroot w).
Proof.
  intros Hl H1 H2 H3.
  unfold PipenvPackage.get_builddir, bind, mkdir_parents_exist_ok, ensure_buildroot.
  destruct (is_dir PipenvPackage.buildroot w) eqn:Ed.
  - unfold read_bytes. rewrite Hl. reflexivity.
  - rewrite H1. cbn [existsb]. rewrite H2, H3. cbn [orb].
    unfold read_bytes. cbn [files set_dirs]. rewrite Hl. reflexivity.
Qed.

Section OrchestratorMore.

Variable os_exec : world -> command -> result completed.
Variable ntf_name : string.
Variable ast_parse : string -> bool.
Variable resolve : string -> string.

(** X8. A source directory with a [Pipfile] but no [Pipfile.lock]: the
    build fails with [FileNotFoundError] for the lock file under the
    resolved source directory. No process has been started and no archive
    written; the build root directory has been made. *)
Theorem missing_lock_file_stops_build sourcedir resgen w :
  let lockfile := pathjoin (resolve sourcedir) "Pipfile.lock" in
  is_file (pathjoin sourcedir "Pipfile") w = true ->
  files w !! lockfile = None ->
  is_file PipenvPackage.buildroot w = false ->
  is_file "/" w = false ->
  is_file "/tmp" w = false ->
  build_zip_package os_exec ntf_name ast_parse resolve sourcedir resgen w
  = (Raise (FileNotFoundError lockfile), ensure_buildroot w)
  /\ spawned (ensure_buildroot w) = spawned w
  /\ zipfiles (ensure_buildroot w) = zipfiles w
  /\ is_dir PipenvPackage.buildroot (ensure_buildroot w) = true.
Proof.
  intros lockfile Hpip Hl H1 H2 H3.
  split; [|auto using ensure_buildroot_spawned, ensure_buildroot_zipfiles,
            ensure_buildroot_is_dir].
  rewrite (build_zip_package_pipenv _ _ _ _ _ _ _ Hpip).
  unfold bind at 1. unfold PipenvPackage.warmup, bind at 1.
  rewrite (get_builddir_no_lock (PipenvPackage_init resolve sourcedir resgen) w Hl H1 H2 H3).
  reflexivity.
Qed.


End OrchestratorMore.

Lemma missing_lock_file_stops_build_witness :
  build_zip_package all_succeed "/tmp/tmp8k2_x1" (fun _ => true) (fun p => p)
    "/srv/app" one_bucket unlocked_world
  = (Raise (FileNotFoundError "/srv/app/Pipfile.lock"), ensure_buildroot unlocked_world).
Proof.
  refine (proj1 (missing_lock_file_stops_build all_succeed "/tmp/tmp8k2_x1" (fun _ => true)
                   (fun p => p) "/srv/app" one_bucket unlocked_world _ _ _ _ _));
    vm_compute; reflexivity.
Defined.


(** X10. [_call_pipenv] starts [pipenv] with the given arguments in the
    root of the package, with an environment that holds every variable of
    [os.environ] unchanged and, where [os.environ] does not define them,
    [PIPENV_NOSPIN=1], [PIPENV_PIPFILE] (the Pipfile of the package),
    [PIPENV_VIRTUALENV] (the build directory) and [PIPENV_VERBOSITY=-1]:
    the environment of the caller wins over these defaults, and no other
    variable is added. *)
Theorem call_pipenv_environment
  (os_exec : world -> command -> result completed)
  (self : PipenvPackage.PipenvPackage) (lock : list byte) (w : world)
  (cmd : list string) (check : bool) (opts : PipenvPackage.popen_opts) :
  lock_ready self lock w ->
  exists env : gmap string string,
    PipenvPackage._call_pipenv os_exec self cmd check opts w
    = PipenvPackage._call_subprocess os_exec ("pipenv" :: cmd) check
        (PipenvPackage.mkOpts (Some env) (Some (PipenvPackage.root self))
           (PipenvPackage.opt_stdout opts) (PipenvPackage.opt_stderr opts))
        (ensure_buildroot w)
    /\ (forall k v, environ w !! k = Some v -> env !! k = Some v)
    /\ (forall k, environ w !! k = None ->
          env !! k
          = if bool_decide (k = "PIPENV_NOSPIN") then Some "1"
            else if bool_decide (k = "PIPENV_PIPFILE")
                 then Some (pathjoin (PipenvPackage.root self) "Pipfile")
            else if bool_decide (k = "PIPENV_VIRTUALENV") then Some (builddir_of lock)
            else if bool_decide (k = "PIPENV_VERBOSITY") then Some "-1"
            else None).
Proof.
  intros Hready. eexists. split; [|split].
  - unfold PipenvPackage._call_pipenv, bind.
    rewrite (get_builddir_ok self lock w Hready). reflexivity.
  - intros k v Hk. rewrite ensure_buildroot_environ.
    apply lookup_union_Some_l. exact Hk.
  - intros k Hk. rewrite ensure_buildroot_environ.
    rewrite lookup_union_r by exact Hk.
    cbn [list_to_map foldr]. unfold PipenvPackage.pipfile.
    repeat case_bool_decide; subst; simplify_map_eq; reflexivity.
Qed.

Lemma call_pipenv_environment_witness :
  exists env : gmap string string,
    PipenvPackage._call_pipenv all_succeed demo_package ["lock"; "--requirements"] true
      piped demo_world
    = PipenvPackage._call_subprocess all_succeed ["pipenv"; "lock"; "--requirements"] true
        (PipenvPackage.mkOpts (Some env) (Some "/srv/app") true true)
        (ensure_buildroot demo_world)
    /\ env !! "PIPENV_PIPFILE" = Some "/srv/app/Pipfile"
    /\ env !! "PATH" = None.
Proof.
  destruct (call_pipenv_environment all_succeed demo_package demo_lock demo_world
              ["lock"; "--requirements"] true piped demo_lock_ready)
    as (env & Hcall & _ & Hdefaults).
  exists env. split; [exact Hcall|].
  split; [exact (Hdefaults "PIPENV_PIPFILE" eq_refl) | exact (Hdefaults "PATH" eq_refl)].
Defined.

(* ===================================================================== *)
(** * Further properties: the generator and the generated module          *)
(* ===================================================================== *)






Lemma cache_remove_perm (n : string) (cache : list (string * accessor.client)) v :
  accessor.cache_get n cache = Some v ->
  Permutation ((n, v) :: accessor.cache_remove n cache) cache.
Proof.
  induction cache as [|[k v'] cache IH]; cbn; [discriminate|].
  destruct (String.eqb_spec k n) as [-> | Hne].
  - intros [= ->]. reflexivity.
  - intros H. rewrite perm_swap. constructor. now apply IH.
Qed.

Lemma removelast_length_le {A} (l : list A) : List.length (removelast l) <= List.length l.
Proof. induction l as [|a [|b l] IH]; cbn in *; lia. Qed.

Lemma removelast_length_lt {A} (l : list A) :
  l <> [] -> S (List.length (removelast l)) = List.length l.
Proof.
  destruct l as [|a l]; [congruence|]. intros _.
  rewrite (app_removelast_last a (l := a :: l)) at 2 by discriminate.
  rewrite length_app. cbn [List.length]. lia.
Qed.

Lemma removelast_sublist_NoDup {A B} (f : A -> B) (l : list A) :
  List.NoDup (map f l) -> List.NoDup (map f (removelast l)).
Proof.
  destruct l as [|a l]; [intros _; constructor|]. intros Hnd.
  rewrite (app_removelast_last a (l := a :: l)) in Hnd by discriminate.
  rewrite map_app in Hnd. exact (NoDup_app_remove_r _ _ Hnd).
Qed.

Section CacheFacts.

Variable _resources : gmap string (accessor.ctor * list pyvalue).

Lemma getattr_within_capacity (n : string) (st : accessor.runtime) :
  within_capacity st ->
  within_capacity (snd (accessor.__getattr__ _resources n st)).
Proof.
  intros (Hlen & Hnd & Hlt). unfold accessor.__getattr__.
  destruct (accessor.cache_get n (accessor.lru st)) as [v|] eqn:Hget.
  - pose proof (cache_remove_perm n _ v Hget) as Hperm.
    cbn [snd]. unfold within_capacity. cbn [accessor.lru accessor.next_oid].
    split; [now rewrite (Permutation_length Hperm)|]. split.
    + eapply Permutation_NoDup; [|exact Hnd].
      apply Permutation_map. now symmetry.
    + intros kv Hkv. apply Hlt. eapply Permutation_in; [exact Hperm | exact Hkv].
  - unfold accessor.__getattr___wrapped.
    destruct (_resources !! n) as [[c args]|]; [|now repeat split].
    unfold accessor.call.
    destruct (List.length (accessor.ctor_args c) =? List.length args)%nat;
      [|now repeat split].
    cbn [snd]. unfold within_capacity. cbn [accessor.lru accessor.next_oid].
    set (kept := if (accessor.maxsize <=? List.length (accessor.lru st))%nat
                 then removelast (accessor.lru st) else accessor.lru st).
    assert (Hsub : forall kv, In kv kept -> In kv (accessor.lru st)).
    { subst kept. destruct (accessor.maxsize <=? _)%nat; [apply removelast_In | auto]. }
    assert (Hklen : S (List.length kept) <= accessor.maxsize).
    { subst kept. destruct (Nat.leb_spec accessor.maxsize (List.length (accessor.lru st)));
        [|lia].
      rewrite removelast_length_lt; [exact Hlen|].
      intros Hnil. rewrite Hnil in *. cbn in *. unfold accessor.maxsize in *. lia. }
    assert (Hknd : List.NoDup (map (fun kv => accessor.oid (snd kv)) kept)).
    { subst kept. destruct (accessor.maxsize <=? _)%nat;
        [now apply removelast_sublist_NoDup | exact Hnd]. }
    split; [exact Hklen|]. split.
    + cbn [map snd accessor.oid]. constructor; [|exact Hknd].
      intros Hin. apply in_map_iff in Hin as (kv & Hoid & Hkv).
      apply Hsub, Hlt in Hkv. lia.
    + intros kv [<- | Hkv]; [cbn; lia|]. apply Hsub, Hlt in Hkv. lia.
Qed.

Lemma lookups_within_capacity (names : list string) (st : accessor.runtime) :
  within_capacity st -> within_capacity (accessor.lookups _resources names st).
Proof.
  revert st. induction names as [|n names IH]; intros st H; [exact H|].
  cbn. apply IH. now apply getattr_within_capacity.
Qed.

(** X12. However many names are bound and whatever is looked up, in which
    order and how often: the cache of [__getattr__] never holds more than
    128 objects, never a name twice, never a name that is not bound, and
    never two objects with the same identity. *)
Theorem cache_stays_within_capacity (names : list string) :
  let st := accessor.lookups _resources names accessor.fresh in
  List.length (accessor.lru st) <= 128
  /\ List.NoDup (map fst (accessor.lru st))
  /\ (forall k v, In (k, v) (accessor.lru st) -> is_Some (_resources !! k))
  /\ List.NoDup (map (fun kv => accessor.oid (snd kv)) (accessor.lru st)).
Proof.
  intros st.
  assert (Hcap : within_capacity st).
  { apply lookups_within_capacity. unfold within_capacity. cbn.
    split; [lia|]. split; [constructor | tauto]. }
  assert (Hsound : sound _resources st) by apply lookups_sound, fresh_sound.
  destruct Hcap as (Hlen & Hoids & _). destruct Hsound as (Hkeys & Hbound).
  split; [exact Hlen|]. split; [exact Hkeys|]. split; [|exact Hoids].
  intros k v Hkv. destruct (Hbound k v Hkv) as (c & args & -> & _). eauto.
Qed.

End CacheFacts.



Section ConstructOnce.

Variable _resources : gmap string (accessor.ctor * list pyvalue).

Lemma cache_within_names (st : accessor.runtime) :
  sound _resources st -> List.length (accessor.lru st) <= size _resources.
Proof.
  intros [Hnd Hin].
  assert (Hle : List.length (map fst (accessor.lru st))
                <= List.length (elements (dom _resources))).
  { apply NoDup_incl_length; [exact Hnd|].
    intros k Hk. apply list_elem_of_In, elem_of_elements, elem_of_dom.
    apply in_map_iff in Hk as ([k' v] & <- & Hk).
    destruct (Hin k' v Hk) as (c & args & Hsome & _). cbn [fst]. eauto. }
  rewrite length_map in Hle.
  assert (Hdom : List.length (elements (dom _resources)) = size _resources)
    by apply size_dom.
  lia.
Qed.

Lemma getattr_counts (n : string) (st : accessor.runtime) :
  size _resources <= accessor.maxsize ->
  sound _resources st ->
  accessor.next_oid st = List.length (accessor.lru st) ->
  accessor.next_oid (snd (accessor.__getattr__ _resources n st))
  = List.length (accessor.lru (snd (accessor.__getattr__ _resources n st))).
Proof.
  intros Hsize Hsound Hcount. unfold accessor.__getattr__.
  destruct (accessor.cache_get n (accessor.lru st)) as [v|] eqn:Hget.
  - cbn [snd accessor.lru accessor.next_oid].
    now rewrite (Permutation_length (cache_remove_perm n _ v Hget)).
  - unfold accessor.__getattr___wrapped.
    destruct (_resources !! n) as [[c args]|] eqn:Hr; [|exact Hcount].
    unfold accessor.call.
    destruct (List.length (accessor.ctor_args c) =? List.length args)%nat;
      [|exact Hcount].
    cbn [snd accessor.lru accessor.next_oid].
    pose proof (miss_has_room _resources n st Hsize Hsound Hget
                  ltac:(rewrite Hr; eauto)) as Hroom.
    destruct (Nat.leb_spec accessor.maxsize (List.length (accessor.lru st))); [lia|].
    cbn [List.length]. now rewrite Hcount.
Qed.

(** X14. With at most 128 bound names, the number of client objects the
    process has constructed is at every moment the number of names in the
    cache: each client is constructed once, at the first lookup of its
    name, and so no more clients are ever constructed than names are
    bound. *)
Theorem constructs_each_client_once (names : list string) :
  size _resources <= accessor.maxsize ->
  let st := accessor.lookups _resources names accessor.fresh in
  accessor.next_oid st = List.length (accessor.lru st)
  /\ accessor.next_oid st <= size _resources.
Proof.
  intros Hsize st.
  assert (H : forall names st0,
            sound _resources st0 ->
            accessor.next_oid st0 = List.length (accessor.lru st0) ->
            accessor.next_oid (accessor.lookups _resources names st0)
            = List.length (accessor.lru (accessor.lookups _resources names st0))).
  { clear names st. induction names as [|n names IH]; intros st0 Hs Hc; [exact Hc|].
    cbn. apply IH; [now apply getattr_sound | now apply getattr_counts]. }
  assert (Hcount : accessor.next_oid st = List.length (accessor.lru st))
    by (apply H; [apply fresh_sound | reflexivity]).
  split; [exact Hcount|]. rewrite Hcount.
  apply cache_within_names, lookups_sound, fresh_sound.
Qed.

End ConstructOnce.

Lemma constructs_each_client_once_witness :
  accessor.next_oid
    (accessor.lookups one_bucket_resources ["bucket"; "missing"; "bucket"; "bucket"]
       accessor.fresh) <= 1.
Proof.
  assert (Hsize : size one_bucket_resources <= accessor.maxsize).
  { unfold one_bucket_resources. rewrite map_size_singleton. unfold accessor.maxsize. lia. }
  pose proof (proj2 (constructs_each_client_once one_bucket_resources
                       ["bucket"; "missing"; "bucket"; "bucket"] Hsize)) as H.
  unfold one_bucket_resources in H at 2. rewrite map_size_singleton in H. exact H.
Defined.

Lemma getattr_twice_witness :
  fst (accessor.__getattr__ many_resources "r"
         (snd (accessor.__getattr__ many_resources "r" accessor.fresh)))
  = Ok (accessor.mkClient "boto3.resource('s3').Bucket(bucket)" [("bucket", VStr "r")] 0).
Proof.
  apply (getattr_twice many_resources "r" accessor.fresh). vm_compute. reflexivity.
Defined.

(* ===================================================================== *)
(** * Further properties: the build directory                           *)
(* ===================================================================== *)

Lemma hexdigit_in (n : N) : (n < 16)%N -> In (hashlib.hexdigit n) hex_digits.
Proof.
  intros H. unfold hashlib.hexdigit, hex_digits. apply nth_In.
  change (List.length (list_ascii_of_string "0123456789abcdef")) with 16%nat. lia.
Qed.

Lemma hex_chars (bs : list N) :
  Forall (fun b => (b < 256)%N) bs ->
  Forall (fun c => In c hex_digits) (list_ascii_of_string (hashlib.hex bs)).
Proof.
  intros H. unfold hashlib.hex. rewrite list_ascii_of_string_of_list_ascii.
  induction H as [|b bs Hb _ IH]; cbn [flat_map app]; [constructor|].
  apply List.Forall_cons; [|apply List.Forall_cons; [|exact IH]]; apply hexdigit_in.
  - apply N.Div0.div_lt_upper_bound. lia.
  - apply N.mod_lt. lia.
Qed.

Lemma hexdigest_shape (contents : list byte) :
  String.length (hashlib.sha3_256_hexdigest contents) = 64
  /\ Forall (fun c => In c hex_digits)
       (list_ascii_of_string (hashlib.sha3_256_hexdigest contents)).
Proof.
  unfold hashlib.sha3_256_hexdigest. split.
  - now rewrite hex_length, sha3_256_N_length.
  - apply hex_chars, List.Forall_forall. intros b. apply sha3_256_N_bytes.
Qed.

Lemma list_ascii_of_string_append (s t : string) :
  list_ascii_of_string (s +:+ t) = list_ascii_of_string s ++ list_ascii_of_string t.
Proof.
  induction s as [|c s IH]; [reflexivity|].
  change (c :: list_ascii_of_string (s +:+ t) = c :: (list_ascii_of_string s ++ list_ascii_of_string t)).
  now rewrite IH.
Qed.

(** X16. The build directory of a lock file is the build root, a slash and
    the 64 lower-case hexadecimal digits of the digest: a direct child of
    the build root, of the same length for every lock file. The archive
    path, the build directory with [.zip] appended, is therefore never the
    build directory of any lock file, and no build directory is the build
    root. *)
Theorem build_directory_name (lock : list byte) :
  exists digest : string,
    builddir_of lock = "/tmp/deplumi/" +:+ digest
    /\ String.length digest = 64
    /\ Forall (fun c => In c hex_digits) (list_ascii_of_string digest)
    /\ ~ In "/"%char (list_ascii_of_string digest)
    /\ (forall lock', builddir_of lock +:+ ".zip" <> builddir_of lock')
    /\ builddir_of lock <> PipenvPackage.buildroot.
Proof.
  exists (hashlib.sha3_256_hexdigest lock).
  destruct (hexdigest_shape lock) as [Hlen Hchars].
  assert (Hdir : forall l, String.length (builddir_of l) = 77).
  { intros l. unfold builddir_of, pathjoin. rewrite !length_append.
    rewrite (proj1 (hexdigest_shape l)). reflexivity. }
  split; [reflexivity|]. split; [exact Hlen|]. split; [exact Hchars|]. split; [|split].
  - intros Hin. rewrite List.Forall_forall in Hchars. specialize (Hchars _ Hin).
    vm_compute in Hchars. intuition discriminate.
  - intros lock' Heq. apply (f_equal String.length) in Heq.
    rewrite length_append, !Hdir in Heq. cbn in Heq. lia.
  - intros Heq. apply (f_equal String.length) in Heq. rewrite Hdir in Heq.
    vm_compute in Heq. lia.
Qed.

(* ===================================================================== *)
(** * Further properties: dates the archive cannot hold, and the filter *)
(* ===================================================================== *)







(** X18. [_get_root], and with it the filter, raises [AssertionError] on
    an absolute path and [IndexError] on the relative path without
    components, ['.']; on every other path it returns the path of the
    first component, which is its own root. The filter answers only on
    relative paths with a component. *)
Theorem get_root_edge_cases :
  (forall p, is_absolute p = true ->
             pipenv_filter._get_root p = Raise AssertionError
             /\ pipenv_filter._filter p = Raise AssertionError)
  /\ pipenv_filter._get_root (relpath_of []) = Raise IndexError
  /\ pipenv_filter._filter (relpath_of []) = Raise IndexError
  /\ (forall p root,
        pipenv_filter._get_root p = Ok root ->
        is_absolute p = false
        /\ (exists top rest, parts p = top :: rest /\ root = relpath_of [top])
        /\ pipenv_filter._get_root root = Ok root)
  /\ (forall p keep,
        pipenv_filter._filter p = Ok keep ->
        is_absolute p = false /\ parts p <> []).
Proof.
  assert (Habs : forall p, is_absolute p = true ->
                           pipenv_filter._get_root p = Raise AssertionError)
    by (intros p H; unfold pipenv_filter._get_root; now rewrite H).
  assert (Hok : forall p root,
            pipenv_filter._get_root p = Ok root ->
            is_absolute p = false
            /\ exists top rest, parts p = top :: rest /\ root = relpath_of [top]).
  { intros [a ps] root H. destruct a; [now rewrite Habs in H|].
    split; [reflexivity|]. destruct ps as [|top rest]; [discriminate|].
    change (mkPath false (top :: rest)) with (relpath_of (top :: rest)) in H.
    rewrite get_root_first in H. injection H as <-. now exists top, rest. }
  split; [|split; [reflexivity|split; [reflexivity|split]]].
  - intros p H. split; [now apply Habs|].
    unfold pipenv_filter._filter. now rewrite Habs.
  - intros p root H. destruct (Hok p root H) as (Hrel & top & rest & Hp & ->).
    split; [exact Hrel|]. split; [now exists top, rest | apply get_root_first].
  - intros p keep H. unfold pipenv_filter._filter in H.
    destruct (pipenv_filter._get_root p) as [root|e] eqn:Hroot; [|discriminate].
    destruct (Hok p root Hroot) as (Hrel & top & rest & Hp & _).
    split; [exact Hrel | now rewrite Hp].
Qed.

(* ===================================================================== *)
(** * Further properties: the lambda bucket                             *)
(* ===================================================================== *)

Section LambdaBucketFacts.

Variable get_region : pyobj -> option string.

(** [get_lambda_bucket], by the region the request is for. *)
Lemma get_lambda_bucket_run region resource st :
  deplumi.get_lambda_bucket get_region region resource st
  = let r := effective_region get_region (region, resource) in
    match deplumi._lambda_buckets st !! r with
    | Some b => (b, st)
    | None =>
        (lambda_bucket r,
         deplumi.mkBuckets (<[r := lambda_bucket r]> (deplumi._lambda_buckets st))
                           (deplumi.declared st ++ [lambda_bucket r]))
    end.
Proof. unfold deplumi.get_lambda_bucket, effective_region. now destruct resource. Qed.

Lemma get_lambda_bucket_consistent region resource st :
  buckets_consistent st ->
  buckets_consistent (snd (deplumi.get_lambda_bucket get_region region resource st)).
Proof.
  intros (Hdict & Hdecl & Hnd). rewrite get_lambda_bucket_run. cbv zeta.
  set (r := effective_region get_region (region, resource)).
  destruct (deplumi._lambda_buckets st !! r) as [b|] eqn:Hr;
    [exact (conj Hdict (conj Hdecl Hnd))|].
  cbn [snd]. unfold buckets_consistent.
  cbn [deplumi._lambda_buckets deplumi.declared]. split; [|split].
  - intros r' b. destruct (decide (r' = r)) as [-> | Hne].
    + rewrite lookup_insert_eq. intros [= <-]. split; [reflexivity|].
      apply in_or_app. right. now left.
    + rewrite lookup_insert_ne by congruence. intros Hb.
      destruct (Hdict r' b Hb) as [-> Hin]. split; [reflexivity|].
      apply in_or_app. now left.
  - intros b Hb. apply in_app_or in Hb as [Hb | [<- | []]].
    + rewrite lookup_insert_ne; [now apply Hdecl|].
      intros Heq. apply Hdecl in Hb. rewrite <- Heq in Hb. congruence.
    + cbn [lambda_bucket deplumi.bucket_region]. apply lookup_insert_eq.
  - rewrite map_app. apply List.NoDup_app; [exact Hnd | repeat constructor; intros [] |].
    intros r' Hin [<- | []]. cbn [lambda_bucket deplumi.bucket_region] in Hin.
    apply in_map_iff in Hin as (b & Hreg & Hb). apply Hdecl in Hb. congruence.
Qed.

Lemma get_lambda_bucket_regions region resource st r' :
  buckets_consistent st ->
  In r' (map deplumi.bucket_region
           (deplumi.declared (snd (deplumi.get_lambda_bucket get_region region resource st))))
  <-> r' = effective_region get_region (region, resource)
      \/ In r' (map deplumi.bucket_region (deplumi.declared st)).
Proof.
  intros (Hdict & Hdecl & Hnd). rewrite get_lambda_bucket_run. cbv zeta.
  set (r := effective_region get_region (region, resource)).
  destruct (deplumi._lambda_buckets st !! r) as [b|] eqn:Hr; cbn [snd].
  - split; [now right|]. intros [-> | H]; [|exact H].
    destruct (Hdict r b Hr) as [-> Hin]. apply in_map_iff. now exists (lambda_bucket r).
  - cbn [deplumi.declared]. rewrite map_app, in_app_iff. cbn. intuition congruence.
Qed.

Lemma get_lambda_buckets_consistent requests : forall st,
  buckets_consistent st ->
  buckets_consistent (deplumi.get_lambda_buckets get_region requests st).
Proof.
  induction requests as [|[region resource] requests IH]; intros st H; [exact H|].
  cbn. now apply IH, get_lambda_bucket_consistent.
Qed.

Lemma get_lambda_buckets_regions requests : forall st r,
  buckets_consistent st ->
  In r (map deplumi.bucket_region
          (deplumi.declared (deplumi.get_lambda_buckets get_region requests st)))
  <-> In r (map (effective_region get_region) requests)
      \/ In r (map deplumi.bucket_region (deplumi.declared st)).
Proof.
  induction requests as [|[region resource] requests IH]; intros st r H.
  - cbn. tauto.
  - cbn [deplumi.get_lambda_buckets map].
    rewrite (IH _ r (get_lambda_bucket_consistent region resource st H)).
    rewrite (get_lambda_bucket_regions region resource st r H). cbn [In].
    intuition congruence.
Qed.

Lemma no_buckets_consistent : buckets_consistent deplumi.no_buckets.
Proof.
  split; [|split].
  - intros r b. cbn. now rewrite lookup_empty.
  - intros b [].
  - constructor.
Qed.

(** X19. After any sequence of requests, [get_lambda_bucket] has
    declared one bucket for each region asked for, directly or through a
    resource, and no other: named [lambda-bucket-] and the region, in that
    region, with versioning enabled. A request returns the bucket of its
    region; repeated, it returns the same bucket and declares nothing, and
    a request for a region asked for before declares nothing. *)
Theorem one_lambda_bucket_per_region (requests : list (option string * option pyobj)) :
  let st := deplumi.get_lambda_buckets get_region requests deplumi.no_buckets in
  List.NoDup (map deplumi.bucket_region (deplumi.declared st))
  /\ (forall r, In r (map deplumi.bucket_region (deplumi.declared st))
               <-> In r (map (effective_region get_region) requests))
  /\ (forall b, In b (deplumi.declared st) ->
                b = lambda_bucket (deplumi.bucket_region b))
  /\ (forall region resource,
        let r := effective_region get_region (region, resource) in
        let first := deplumi.get_lambda_bucket get_region region resource st in
        fst first = lambda_bucket r
        /\ deplumi.get_lambda_bucket get_region region resource (snd first) = first
        /\ (In r (map (effective_region get_region) requests) -> snd first = st)).
Proof.
  intros st.
  assert (Hst : buckets_consistent st)
    by apply get_lambda_buckets_consistent, no_buckets_consistent.
  assert (Hregs : forall r, In r (map deplumi.bucket_region (deplumi.declared st))
                            <-> In r (map (effective_region get_region) requests)).
  { intros r. unfold st.
    rewrite (get_lambda_buckets_regions requests _ r no_buckets_consistent).
    cbn. tauto. }
  destruct Hst as (Hdict & Hdecl & Hnd).
  split; [exact Hnd|]. split; [exact Hregs|]. split.
  { intros b Hb. exact (proj1 (Hdict _ b (Hdecl b Hb))). }
  intros region resource r first. subst first.
  rewrite !get_lambda_bucket_run. cbv zeta. fold r.
  destruct (deplumi._lambda_buckets st !! r) as [b|] eqn:Hr.
  - cbn [fst snd]. rewrite Hr. split; [exact (proj1 (Hdict r b Hr))|]. now split.
  - cbn [fst snd deplumi._lambda_buckets]. rewrite lookup_insert_eq.
    split; [reflexivity|]. split; [reflexivity|].
    intros Hin. apply Hregs, in_map_iff in Hin as (b & Hreg & Hb).
    apply Hdecl in Hb. congruence.
Qed.

Lemma map_injective_on {A B} (f : A -> B) (l : list A) :
  List.NoDup (map f l) -> forall x y, In x l -> In y l -> f x = f y -> x = y.
Proof.
  induction l as [|a l IH]; intros Hnd x y Hx Hy Hf; [destruct Hx|].
  cbn [map] in Hnd. apply List.NoDup_cons_iff in Hnd as [Hnot Hnd].
  destruct Hx as [<- | Hx], Hy as [<- | Hy]; [reflexivity | | | now apply IH].
  - elim Hnot. rewrite Hf. now apply in_map.
  - elim Hnot. rewrite <- Hf. now apply in_map.
Qed.

(** X20. The resource names of the declared buckets are pairwise
    distinct exactly when the regions asked for do not hold both no region
    ([None]) and the region named ["None"]: both are formatted as
    [lambda-bucket-None]. *)
Theorem lambda_bucket_names_distinct (requests : list (option string * option pyobj)) :
  let st := deplumi.get_lambda_buckets get_region requests deplumi.no_buckets in
  let regions := map (effective_region get_region) requests in
  List.NoDup (map deplumi.bucket_resource_name (deplumi.declared st))
  <-> ~ (In None regions /\ In (Some "None") regions).
Proof.
  intros st regions.
  assert (Hst : buckets_consistent st)
    by apply get_lambda_buckets_consistent, no_buckets_consistent.
  assert (Hregs : forall r, In r (map deplumi.bucket_region (deplumi.declared st))
                            <-> In r regions).
  { intros r. unfold st.
    rewrite (get_lambda_buckets_regions requests _ r no_buckets_consistent).
    cbn. tauto. }
  destruct Hst as (Hdict & Hdecl & Hnd).
  assert (Hshape : forall b, In b (deplumi.declared st) ->
                             b = lambda_bucket (deplumi.bucket_region b))
    by (intros b Hb; exact (proj1 (Hdict _ b (Hdecl b Hb)))).
  assert (Hin : forall r, In r regions -> In (lambda_bucket r) (deplumi.declared st)).
  { intros r Hr. apply Hregs, in_map_iff in Hr as (b & <- & Hb).
    now rewrite <- (Hshape b Hb). }
  split.
  - intros Hnames [Hnone Hsome].
    pose proof (map_injective_on _ _ Hnames _ _ (Hin _ Hnone) (Hin _ Hsome) eq_refl) as Heq.
    discriminate Heq.
  - intros Hnot.
    apply (NoDup_map_NoDup_ForallPairs deplumi.bucket_resource_name).
    + intros x y Hx Hy Hname.
      rewrite (Hshape x Hx), (Hshape y Hy) in Hname |- *.
      assert (Hrx : In (deplumi.bucket_region x) regions)
        by (apply Hregs, in_map; exact Hx).
      assert (Hry : In (deplumi.bucket_region y) regions)
        by (apply Hregs, in_map; exact Hy).
      cbn [lambda_bucket deplumi.bucket_resource_name] in Hname.
      apply append_inj_l in Hname.
      destruct (deplumi.bucket_region x) as [rx|], (deplumi.bucket_region y) as [ry|];
        cbn [deplumi.format_region] in Hname; subst; try reflexivity; tauto.
    + apply (NoDup_map_inv deplumi.bucket_region). exact Hnd.
Qed.

End LambdaBucketFacts.

(* ===================================================================== *)
(** * Further properties: the functions of a package                    *)
(* ===================================================================== *)

Lemma prefix_empty (s : string) : String.prefix "" s = true.
Proof. now destruct s. Qed.

(** [replace] of one character by one character goes character by
    character. *)
Lemma replace_from_char (old new : ascii) (s : string) : forall fuel,
  String.length s <= fuel ->
  replace_from fuel (String old "") (String new "") s = replace_char old new s.
Proof.
  induction s as [|c s IH]; intros fuel Hf; [now destruct fuel|].
  destruct fuel as [|fuel]; [cbn in Hf; lia|].
  cbn [String.length] in Hf.
  cbn [replace_from replace_char String.prefix String.length drop_string].
  rewrite prefix_empty.
  destruct (ascii_dec old c) as [<- | Hne].
  - rewrite Ascii.eqb_refl, IH by lia. reflexivity.
  - destruct (Ascii.eqb_spec c old) as [-> | _]; [congruence|].
    now rewrite IH by lia.
Qed.

Lemma replace_char_spec (old new : ascii) (s : string) :
  replace s (String old "") (String new "") = replace_char old new s.
Proof. unfold replace. now apply replace_from_char. Qed.

Lemma replace_char_length (old new : ascii) (s : string) :
  String.length (replace_char old new s) = String.length s.
Proof. induction s as [|c s IH]; cbn; [reflexivity | now rewrite IH]. Qed.

Lemma replace_char_gone (old new : ascii) (s : string) :
  old <> new -> ~ In old (list_ascii_of_string (replace_char old new s)).
Proof.
  intros Hne. induction s as [|c s IH]; cbn; [tauto|].
  intros [H | H]; [|now apply IH].
  destruct (Ascii.eqb_spec c old); congruence.
Qed.

Lemma replace_char_absent (old new : ascii) (s : string) :
  ~ In old (list_ascii_of_string s) -> replace_char old new s = s.
Proof.
  induction s as [|c s IH]; cbn; [reflexivity|]. intros H.
  destruct (Ascii.eqb_spec c old) as [-> | _]; [tauto|]. rewrite IH; tauto.
Qed.

(** X21. When [Package.function] returns, the handler of the function is
    [func] with every colon replaced by a dot: of the same length, without
    a colon, and unchanged when [func] is passed through again. The
    function is named [name], its runtime is [python3.7], and no keyword
    argument of the caller repeats [handler], [s3_bucket], [s3_key],
    [s3_object_version], [runtime] or [role]: the runtime cannot be
    overridden. *)
Theorem function_handler_has_no_colon
  (Function_accepts : list (string * pyvalue) -> bool)
  (self : deplumi.Package) (name func : string) (kwargs : list (string * pyvalue))
  (f : deplumi.lambda_Function) :
  deplumi.function Function_accepts self name func kwargs = Ok f ->
  deplumi.fn_handler f = replace_char ":" "." func
  /\ String.length (deplumi.fn_handler f) = String.length func
  /\ ~ In ":"%char (list_ascii_of_string (deplumi.fn_handler f))
  /\ deplumi.function Function_accepts self name (deplumi.fn_handler f) kwargs = Ok f
  /\ deplumi.fn_resource_name f = name
  /\ deplumi.fn_runtime f = "python3.7"
  /\ deplumi.fn_kwargs f = kwargs
  /\ forall k, In k deplumi.function_keywords -> ~ In k (map fst kwargs).
Proof.
  unfold deplumi.function. rewrite replace_char_spec.
  destruct (existsb _ (map fst kwargs)) eqn:Hdup; [discriminate|].
  destruct (Function_accepts kwargs); [|discriminate].
  intros [= <-]. cbn [deplumi.fn_handler deplumi.fn_resource_name deplumi.fn_runtime
                      deplumi.fn_kwargs fst].
  assert (Hgone : ~ In ":"%char (list_ascii_of_string (replace_char ":" "." func)))
    by (apply replace_char_gone; discriminate).
  split; [reflexivity|]. split; [apply replace_char_length|]. split; [exact Hgone|].
  split; [now rewrite replace_char_spec, (replace_char_absent _ _ _ Hgone)|].
  split; [reflexivity|]. split; [reflexivity|]. split; [reflexivity|].
  intros k Hk Hin.
  assert (Hex : existsb (fun k => bool_decide (In k deplumi.function_keywords))
                  (map fst kwargs) = true).
  { apply existsb_exists. exists k. split; [exact Hin | now apply bool_decide_eq_true_2]. }
  congruence.
Qed.

Lemma function_handler_has_no_colon_witness :
  exists f,
    deplumi.function (fun _ => true) demo_outputs "api-function" "app.handlers:main"
      [("timeout", VStr "30")] = Ok f
    /\ deplumi.fn_handler f = "app.handlers.main".
Proof.
  eexists. split; [reflexivity|].
  exact (proj1 (function_handler_has_no_colon (fun _ => true) demo_outputs "api-function"
                  "app.handlers:main" [("timeout", VStr "30")] _ eq_refl)).
Defined.
